(** * Akashvani AI: the conversational orchestration pipeline

    A shallow embedding of the Python services of the repository
    ([services/ai_service.py], [services/news_service.py],
    [services/speech_service.py], [services/conversation_handler.py] and the
    audio registry of [main.py]) together with the properties the
    specification states about them.

    Python values are dynamically typed, so the values that flow through the
    pipeline (decoded JSON, article dictionaries, the session) are modelled
    by one type [pyval]; operations that Python rejects at run time return
    [Raise].  The three cloud providers are oracles of a [World]; every call
    to one of them is recorded in the state's [trace]. *)

From Stdlib Require Import ZArith Ascii String.
From stdpp Require Import gmap strings list pretty.

Local Open Scope string_scope.
Local Open Scope Z_scope.

(** ** Python values *)

(** The values [json.loads] can produce (floats left out), which are also the
    values stored in article dictionaries and in the session. *)
#[warnings="-register-all"]
Inductive pyval : Type :=
  | PyNone
  | PyBool (b : bool)
  | PyInt (n : Z)
  | PyStr (s : string)
  | PyList (l : list pyval)
  | PyDict (d : list (string * pyval)).

(** Audio is an opaque byte string. *)
Abbreviation bytes := (list Byte.byte).

(** The exceptions that occur; all of them derive from [Exception], also
    FastAPI's [HTTPException]. *)
Inductive exn : Type :=
  | AttributeError
  | TypeError
  | KeyError
  | IndexError
  | ProviderError (what : string)
  | HTTPException (status_code : Z) (detail : string).

Inductive result (A : Type) : Type :=
  | Ok (a : A)
  | Raise (e : exn).
Arguments Ok {A} a.
Arguments Raise {A} e.

Definition rbind {A B} (m : result A) (k : A -> result B) : result B :=
  match m with
  | Ok a => k a
  | Raise e => Raise e
  end.

Notation "'let?' x := m 'in' k" := (rbind m (fun x => k))
  (at level 10, x name, m at level 100, k at level 200, only parsing).

(** *** Dictionaries with string keys, in insertion order *)

Fixpoint dict_get {V} (d : list (string * V)) (k : string) : option V :=
  match d with
  | [] => None
  | (k', v) :: d' => if String.eqb k' k then Some v else dict_get d' k
  end.

(** [d[k] = v]: an existing key keeps its position, a new one goes last. *)
Fixpoint dict_set {V} (d : list (string * V)) (k : string) (v : V)
  : list (string * V) :=
  match d with
  | [] => [(k, v)]
  | (k', v') :: d' =>
      if String.eqb k' k then (k, v) :: d' else (k', v') :: dict_set d' k v
  end.

(** [x.get(key, default)]: only a dict has [get]. *)
Definition py_get (x : pyval) (key : string) (default : pyval) : result pyval :=
  match x with
  | PyDict d => Ok (match dict_get d key with Some v => v | None => default end)
  | _ => Raise AttributeError
  end.

(** Truth value of an object in a condition. *)
Definition py_truthy (x : pyval) : bool :=
  match x with
  | PyNone => false
  | PyBool b => b
  | PyInt n => negb (n =? 0)
  | PyStr s => negb (String.eqb s "")
  | PyList l => match l with [] => false | _ => true end
  | PyDict d => match d with [] => false | _ => true end
  end.

(** [a == b] on these values: booleans compare as the integers 0 and 1,
    dictionaries regardless of order. *)
Fixpoint py_eq (a b : pyval) {struct a} : bool :=
  match a, b with
  | PyNone, PyNone => true
  | PyBool x, PyBool y => Bool.eqb x y
  | PyBool x, PyInt n => n =? (if x then 1 else 0)
  | PyInt n, PyBool x => n =? (if x then 1 else 0)
  | PyInt n, PyInt m => n =? m
  | PyStr s, PyStr t => String.eqb s t
  | PyList l, PyList m =>
      (fix go (l m : list pyval) : bool :=
         match l, m with
         | [], [] => true
         | x :: l', y :: m' => py_eq x y && go l' m'
         | _, _ => false
         end) l m
  | PyDict d, PyDict e =>
      Nat.eqb (length d) (length e) &&
      (fix go (d : list (string * pyval)) : bool :=
         match d with
         | [] => true
         | (k, v) :: d' =>
             match dict_get e k with
             | Some w => py_eq v w
             | None => false
             end && go d'
         end) d
  | _, _ => false
  end.

(** [l[:n]] on a list: a negative bound counts from the end. *)
Definition slice_to {A} (l : list A) (n : Z) : list A :=
  if 0 <=? n then take (Z.to_nat n) l
  else take (Z.to_nat (Z.of_nat (length l) + n)) l.

(** [l[-n:]] for a positive [n]. *)
Definition last_n {A} (n : nat) (l : list A) : list A :=
  drop (length l - n)%nat l.

(** [x[:n]]: lists and strings can be sliced, anything else is a TypeError. *)
Definition py_slice_to (x : pyval) (n : Z) : result pyval :=
  match x with
  | PyList l => Ok (PyList (slice_to l n))
  | PyStr s =>
      Ok (PyStr (string_of_list_ascii (slice_to (list_ascii_of_string s) n)))
  | _ => Raise TypeError
  end.

(** The items a [for] loop over [x] visits: the elements of a list, the
    one-character strings of a string, the keys of a dict. *)
Definition py_iter (x : pyval) : result (list pyval) :=
  match x with
  | PyList l => Ok l
  | PyStr s => Ok (map (fun c => PyStr (String c "")) (list_ascii_of_string s))
  | PyDict d => Ok (map (fun kv => PyStr (fst kv)) d)
  | _ => Raise TypeError
  end.

(** *** Strings *)

(** [needle in haystack]. *)
Fixpoint str_contains (needle haystack : string) : bool :=
  String.prefix needle haystack ||
  match haystack with
  | EmptyString => false
  | String _ rest => str_contains needle rest
  end.

(** [sep.join(words)]. *)
Fixpoint str_join (sep : string) (words : list string) : string :=
  match words with
  | [] => ""
  | [w] => w
  | w :: ws => w ++ sep ++ str_join sep ws
  end.

(** The decimal numeral an f-string prints for an [int]. *)
Definition str_of_int (n : Z) : string := pretty n.

(** ** The Python runtime

    Library functions whose definition is not part of the repository.  The
    properties below hold for every implementation of them. *)
Class Runtime : Type := {
  (** [s.lower()] *)
  str_lower : string -> string;
  (** [s.split()], splitting at runs of whitespace *)
  str_split : string -> list string;
  (** [s.strip()] *)
  str_strip : string -> string;
  (** [json.loads(s)]; [None] stands for [json.JSONDecodeError] *)
  json_loads : string -> option pyval;
  (** [str(x)] for a value that is not a string *)
  str_of_other : pyval -> string
}.

(** What an f-string prints for [{x}]. *)
Definition py_format `{Runtime} (x : pyval) : string :=
  match x with
  | PyStr s => s
  | PyInt n => str_of_int n
  | _ => str_of_other x
  end.

(** ** The outside world and the state of the process *)

(** One entry of the chat history, [{"role": ..., "content": ...}]. *)
Record message : Type := { role : string; content : string }.

(** The two requests sent to the news API (the API key is left out). *)
Inductive news_query : Type :=
  | TopHeadlines (category : pyval) (country : string) (pageSize : Z)
  | Everything (q : pyval) (pageSize : Z).

(** A call to a provider. *)
Inductive event : Type :=
  | Transcribe (audio : bytes)
  | ChatCompletion (messages : list message)
  | NewsGet (query : news_query)
  | Speak (model : string) (text : pyval).

(** What the providers answer.  An answer may depend on everything that was
    requested before, so the same request can succeed once and fail later.
    - [deepgram_transcribe]: the transcript of the first alternative, [None]
      when the response carries no results;
    - [openai_chat]: [choices[0].message.content];
    - [newsapi_get]: [requests.get], [raise_for_status] and [response.json()];
    - [deepgram_speak]: the bytes of [stream_memory], [None] when missing. *)
Class World : Type := {
  deepgram_transcribe : list event -> bytes -> result (option string);
  openai_chat : list event -> list message -> result (option string);
  newsapi_get : list event -> news_query -> result pyval;
  deepgram_speak : list event -> string -> pyval -> result (option bytes)
}.

(** The mutable state: [AIService.conversation_history],
    [ConversationHandler.current_session], and the provider calls made so
    far, oldest first. *)
Record state : Type := {
  conversation_history : list message;
  current_session : gmap string pyval;
  trace : list event
}.

(** Computations that read and write the state and may raise; what was
    written before an exception stays written. *)
Definition M (A : Type) : Type := state -> result A * state.

Definition ret {A} (a : A) : M A := fun st => (Ok a, st).

Definition raise {A} (e : exn) : M A := fun st => (Raise e, st).

Definition bind {A B} (m : M A) (k : A -> M B) : M B :=
  fun st =>
    match m st with
    | (Ok a, st') => k a st'
    | (Raise e, st') => (Raise e, st')
    end.

Notation "'let*' x := m 'in' k" := (bind m (fun x => k))
  (at level 10, x name, m at level 100, k at level 200, only parsing).

(** [try: body except Exception as e: handler e]. *)
Definition try_except {A} (body : M A) (handler : exn -> M A) : M A :=
  fun st =>
    match body st with
    | (Ok a, st') => (Ok a, st')
    | (Raise e, st') => handler e st'
    end.

(** A computation that does not touch the state. *)
Definition lift {A} (r : result A) : M A := fun st => (r, st).

Definition record_call (e : event) (st : state) : state :=
  {| conversation_history := conversation_history st;
     current_session := current_session st;
     trace := trace st ++ [e] |}.

Section Calls.
Context `{World}.

Definition call_transcribe (audio : bytes) : M (option string) :=
  fun st => (deepgram_transcribe (trace st) audio,
             record_call (Transcribe audio) st).

Definition call_chat (messages : list message) : M (option string) :=
  fun st => (openai_chat (trace st) messages,
             record_call (ChatCompletion messages) st).

Definition call_news (query : news_query) : M pyval :=
  fun st => (newsapi_get (trace st) query, record_call (NewsGet query) st).

Definition call_speak (model : string) (text : pyval) : M (option bytes) :=
  fun st => (deepgram_speak (trace st) model text,
             record_call (Speak model text) st).
End Calls.

(** ** config.py *)

Definition NEWS_CATEGORIES : list string :=
  ["technology"; "politics"; "sports"; "entertainment"; "business"; "health";
   "science"].

(** ** services/ai_service.py *)

Definition dq : string := String (ascii_of_nat 34) EmptyString.
Definition nl : string := String (ascii_of_nat 10) EmptyString.

Definition system_prompt : string :=
  nl ++
  "You are Akashvani AI, a helpful voice assistant that specializes in delivering news updates. " ++ nl ++
  "Your primary functions are:" ++ nl ++
  "1. Provide top 5 news updates from different categories (technology, politics, sports, entertainment, business, health, science)" ++ nl ++
  "2. Search for specific news topics" ++ nl ++
  "3. Have natural conversations about current events" ++ nl ++
  nl ++
  "Analyze the user's request and respond with a JSON object containing:" ++ nl ++
  "{" ++ nl ++
  "    " ++ dq ++ "intent" ++ dq ++ ": " ++ dq ++ "news_category" ++ dq ++ " | "
    ++ dq ++ "news_search" ++ dq ++ " | " ++ dq ++ "general_conversation" ++ dq
    ++ " | " ++ dq ++ "greeting" ++ dq ++ " | " ++ dq ++ "help" ++ dq ++ "," ++ nl ++
  "    " ++ dq ++ "category" ++ dq ++ ": " ++ dq
    ++ "technology|politics|sports|entertainment|business|health|science" ++ dq
    ++ " (if intent is news_category)," ++ nl ++
  "    " ++ dq ++ "search_query" ++ dq ++ ": " ++ dq ++ "search terms" ++ dq
    ++ " (if intent is news_search)," ++ nl ++
  "    " ++ dq ++ "response" ++ dq ++ ": " ++ dq ++ "Your conversational response"
    ++ dq ++ "," ++ nl ++
  "    " ++ dq ++ "action" ++ dq ++ ": " ++ dq ++ "fetch_news" ++ dq ++ " | "
    ++ dq ++ "search_news" ++ dq ++ " | " ++ dq ++ "respond_only" ++ dq ++ nl ++
  "}" ++ nl ++
  nl ++
  "For news requests, be enthusiastic and professional. For greetings, introduce yourself as Akashvani AI." ++ nl.

Definition history_append (m : message) : M unit :=
  fun st =>
    (Ok tt,
     {| conversation_history := conversation_history st ++ [m];
        current_session := current_session st;
        trace := trace st |}).

Definition get_history : M (list message) :=
  fun st => (Ok (conversation_history st), st).

(** The loop over [Config.NEWS_CATEGORIES] of [_parse_fallback_response],
    which returns at the first category found in the text. *)
Fixpoint fallback_category (categories : list string) (user_text_lower : string)
  : option string :=
  match categories with
  | [] => None
  | category :: rest =>
      if str_contains category user_text_lower
         || str_contains (category ++ " news") user_text_lower
      then Some category
      else fallback_category rest user_text_lower
  end.

Section AIService.
Context `{Runtime} `{World}.

Definition _parse_fallback_response (ai_response user_text : string)
  : list (string * pyval) :=
  let user_text_lower := str_lower user_text in
  match fallback_category NEWS_CATEGORIES user_text_lower with
  | Some category =>
      [("intent", PyStr "news_category");
       ("category", PyStr category);
       ("response",
        PyStr ("Let me get the latest " ++ category ++ " news for you."));
       ("action", PyStr "fetch_news")]
  | None =>
      if existsb (fun word => str_contains word user_text_lower)
           ["news"; "headlines"; "updates"]
      then
        [("intent", PyStr "news_category");
         ("category", PyStr "general");
         ("response", PyStr "Let me get the latest news updates for you.");
         ("action", PyStr "fetch_news")]
      else if existsb (fun word => str_contains word user_text_lower)
                ["hello"; "hi"; "hey"; "good morning"; "good evening"]
      then
        [("intent", PyStr "greeting");
         ("response",
          PyStr "Hello! I'm Akashvani AI, your voice assistant for news updates. Ask me for news from any category like technology, politics, sports, or entertainment!");
         ("action", PyStr "respond_only")]
      else
        [("intent", PyStr "general_conversation");
         ("response", PyStr ai_response);
         ("action", PyStr "respond_only")]
  end.

(** The messages of one inference request: the system prompt, then
    [conversation_history[-5:]]. *)
Definition request_messages (history : list message) : list message :=
  {| role := "system"; content := system_prompt |} :: last_n 5 history.

Definition process_user_input (user_text : string) : M pyval :=
  try_except
    (let* _ := history_append {| role := "user"; content := user_text |} in
     let* history := get_history in
     let* reply := call_chat (request_messages history) in
     let* ai_response := lift (match reply with
                               | Some c => Ok (str_strip c)
                               | None => Raise AttributeError
                               end) in
     let* _ :=
       history_append {| role := "assistant"; content := ai_response |} in
     match json_loads ai_response with
     | Some result => ret result
     | None => ret (PyDict (_parse_fallback_response ai_response user_text))
     end)
    (fun _ =>
       ret (PyDict
              [("intent", PyStr "general_conversation");
               ("response",
                PyStr "I'm sorry, I'm having trouble processing your request right now. Please try again.");
               ("action", PyStr "respond_only")])).

Definition clear_conversation_history : M unit :=
  fun st =>
    (Ok tt,
     {| conversation_history := [];
        current_session := current_session st;
        trace := trace st |}).
End AIService.

(** ** services/news_service.py *)

(** The dictionary built for one provider article in the loop of
    [get_top_headlines]; [search_news] builds it the same way. *)
Definition format_article (i : Z) (article : pyval) : result pyval :=
  let? title := py_get article "title" (PyStr "") in
  let? description := py_get article "description" (PyStr "") in
  let? source := py_get article "source" (PyDict []) in
  let? name := py_get source "name" (PyStr "") in
  let? url := py_get article "url" (PyStr "") in
  let? publishedAt := py_get article "publishedAt" (PyStr "") in
  Ok (PyDict [("number", PyInt i);
              ("title", title);
              ("description", description);
              ("source", name);
              ("url", url);
              ("publishedAt", publishedAt)]).

(** [for i, article in enumerate(items, i): formatted_articles.append(...)]. *)
Fixpoint format_articles (i : Z) (items : list pyval)
    (formatted_articles : list pyval) : result (list pyval) :=
  match items with
  | [] => Ok formatted_articles
  | article :: rest =>
      let? formatted_article := format_article i article in
      format_articles (i + 1) rest (formatted_articles ++ [formatted_article])
  end.

(** From the decoded response to the formatted articles. *)
Definition articles_of_response (data : pyval) (limit : Z)
  : result (list pyval) :=
  let? articles := py_get data "articles" (PyList []) in
  let? sliced := py_slice_to articles limit in
  let? items := py_iter sliced in
  format_articles 1 items [].

Section NewsService.
Context `{World}.

Definition get_top_headlines (category : pyval) (country : string)
    (limit : Z) : M (list pyval) :=
  try_except
    (let* data := call_news (TopHeadlines category country limit) in
     lift (articles_of_response data limit))
    (fun _ => ret []).

Definition search_news (query : pyval) (limit : Z) : M (list pyval) :=
  try_except
    (let* data := call_news (Everything query limit) in
     lift (articles_of_response data limit))
    (fun _ => ret []).

(** The loop of [get_all_categories_news] over the categories left. *)
Fixpoint all_categories_loop (categories : list string)
    (limit_per_category : Z) (all_news : list (string * list pyval))
  : M (list (string * list pyval)) :=
  match categories with
  | [] => ret all_news
  | category :: rest =>
      let* all_news :=
        try_except
          (let* news :=
             get_top_headlines (PyStr category) "us" limit_per_category in
           ret (dict_set all_news category news))
          (fun _ => ret (dict_set all_news category [])) in
      all_categories_loop rest limit_per_category all_news
  end.

Definition get_all_categories_news (limit_per_category : Z)
  : M (list (string * list pyval)) :=
  all_categories_loop NEWS_CATEGORIES limit_per_category [].
End NewsService.

(** ** services/speech_service.py *)

Definition voices : list (string * string) :=
  [("female", "aura-asteria-en"); ("male", "aura-orion-en")].

(** [self.voices.get(voice_type, self.voices["female"])]. *)
Definition selected_voice (voice_type : string) : string :=
  match dict_get voices voice_type with
  | Some v => v
  | None => "aura-asteria-en"
  end.

Section SpeechService.
Context `{Runtime} `{World}.

Definition transcribe_audio (audio_data : bytes) : M (option string) :=
  try_except
    (let* response := call_transcribe audio_data in
     match response with
     | Some transcript => ret (Some transcript)
     | None => ret None
     end)
    (fun _ => ret None).

Definition synthesize_speech (text : pyval) (voice_type : string)
  : M (option bytes) :=
  try_except
    (let* response := call_speak (selected_voice voice_type) text in
     match response with
     | Some audio_data =>
         (* the log line prints text[:50] *)
         let* _ := lift (py_slice_to text 50) in
         ret (Some audio_data)
     | None => ret None
     end)
    (fun _ => ret None).

(** The loop of [format_news_for_speech]:
    [for i, article in enumerate(articles, i)]. *)
Fixpoint speech_loop (i : Z) (articles : list pyval) (speech_text : string)
  : result string :=
  match articles with
  | [] => Ok speech_text
  | article :: rest =>
      let? title := py_get article "title" (PyStr "") in
      let? description := py_get article "description" (PyStr "") in
      let speech_text :=
        speech_text ++ "Headline " ++ str_of_int i ++ ": "
                    ++ py_format title ++ ". " in
      let? speech_text :=
        if py_truthy description && negb (py_eq description title) then
          match description with
          | PyStr d =>
              let desc_words := take 25 (str_split d) in
              let summary := str_join " " desc_words in
              let summary :=
                if Nat.eqb (length desc_words) 25 then summary ++ "..."
                else summary in
              Ok (speech_text ++ summary ++ " ")
          | _ => Raise AttributeError
          end
        else Ok speech_text in
      speech_loop (i + 1) rest (speech_text ++ nl ++ nl)
  end.

Definition format_news_for_speech (articles : list pyval) (category : pyval)
  : result string :=
  match articles with
  | [] =>
      Ok ("Sorry, I couldn't fetch any news for " ++ py_format category
          ++ " at the moment.")
  | _ =>
      speech_loop 1 articles
        ("Here are the top " ++ py_format category ++ " news headlines:"
         ++ nl ++ nl)
  end.
End SpeechService.

(** ** services/conversation_handler.py *)

(** [self.current_session.update({...})]. *)
Definition session_update (entries : list (string * pyval)) : M unit :=
  fun st =>
    (Ok tt,
     {| conversation_history := conversation_history st;
        current_session :=
          foldl (fun m kv => <[kv.1 := kv.2]> m) (current_session st) entries;
        trace := trace st |}).

Definition get_session : M (gmap string pyval) :=
  fun st => (Ok (current_session st), st).

(** [len(x)]. *)
Definition py_len (x : pyval) : result Z :=
  match x with
  | PyList l => Ok (Z.of_nat (length l))
  | PyDict d => Ok (Z.of_nat (length d))
  | PyStr s => Ok (Z.of_nat (String.length s))
  | _ => Raise TypeError
  end.

(** [x[i]] for an integer [i]: a list is indexed by position (from the end
    when [i] is negative); a dict with string keys has no integer key. *)
Definition py_getitem (x : pyval) (i : Z) : result pyval :=
  match x with
  | PyList l =>
      let j := if i <? 0 then Z.of_nat (length l) + i else i in
      if j <? 0 then Raise IndexError
      else match l !! Z.to_nat j with
           | Some v => Ok v
           | None => Raise IndexError
           end
  | PyStr s =>
      let j := if i <? 0 then Z.of_nat (String.length s) + i else i in
      if j <? 0 then Raise IndexError
      else match String.get (Z.to_nat j) s with
           | Some c => Ok (PyStr (String c ""))
           | None => Raise IndexError
           end
  | PyDict _ => Raise KeyError
  | _ => Raise TypeError
  end.

(** The value stored for [all_news] in the session. *)
Definition all_news_value (all_news : list (string * list pyval)) : pyval :=
  PyDict (map (fun kv => (kv.1, PyList kv.2)) all_news).

Section ConversationHandler.
Context `{Runtime} `{World}.

(** The loop of [_format_general_news_update] over [all_news.items()]. *)
Fixpoint general_news_loop (items : list (string * list pyval))
    (response : string) : result string :=
  match items with
  | [] => Ok response
  | (category, articles) :: rest =>
      match articles with
      | [] => general_news_loop rest response
      | first :: _ =>
          let? title := py_get first "title" (PyStr "No title available") in
          general_news_loop rest
            (response ++ "Top " ++ category ++ " headline: "
                      ++ py_format title ++ "." ++ nl ++ nl)
      end
  end.

Definition _format_general_news_update
    (all_news : list (string * list pyval)) : string :=
  match general_news_loop all_news
          ("Here's your news briefing from Akashvani AI." ++ nl ++ nl) with
  | Ok response =>
      response ++ "Which category would you like me to read in detail?"
  | Raise _ =>
      "Here's a quick news update. I have the latest stories from technology, politics, sports, and entertainment. Which category interests you most?"
  end.

Definition _handle_news_request (ai_response : pyval) : M string :=
  let* category := lift (py_get ai_response "category" (PyStr "general")) in
  let* fetched :=
    if py_eq category (PyStr "general") then
      let* all_news := get_all_categories_news 3 in
      ret (_format_general_news_update all_news, all_news_value all_news)
    else
      let* news_articles := get_top_headlines category "us" 5 in
      let* response :=
        lift (match news_articles with
              | _ :: _ => format_news_for_speech news_articles category
              | [] =>
                  Ok ("I'm sorry, I couldn't fetch " ++ py_format category
                      ++ " news at the moment. Would you like news from another category?")
              end) in
      ret (response, PyList news_articles) in
  let* _ := session_update [("last_category", category);
                            ("last_news_data", fetched.2);
                            ("last_action", PyStr "news_fetch")] in
  ret fetched.1.

Definition _handle_news_search (ai_response : pyval) : M string :=
  let* search_query := lift (py_get ai_response "search_query" (PyStr "")) in
  if negb (py_truthy search_query) then
    ret "I need a specific topic to search for. What news would you like me to find?"
  else
    let* search_results := search_news search_query 5 in
    let* response :=
      lift (match search_results with
            | _ :: _ =>
                format_news_for_speech search_results
                  (PyStr ("search results for " ++ py_format search_query))
            | [] =>
                Ok ("I couldn't find any recent news about '"
                    ++ py_format search_query
                    ++ "'. Would you like me to search for something else?")
            end) in
    let* _ := session_update [("last_search", search_query);
                              ("last_news_data", PyList search_results);
                              ("last_action", PyStr "news_search")] in
    ret response.

Definition _handle_intent (ai_response : pyval) : M pyval :=
  let* intent :=
    lift (py_get ai_response "intent" (PyStr "general_conversation")) in
  let* action := lift (py_get ai_response "action" (PyStr "respond_only")) in
  try_except
    (if py_eq action (PyStr "fetch_news") then
       let* response := _handle_news_request ai_response in
       ret (PyStr response)
     else if py_eq action (PyStr "search_news") then
       let* response := _handle_news_search ai_response in
       ret (PyStr response)
     else
       lift (py_get ai_response "response"
               (PyStr "I'm here to help you with news updates!")))
    (fun _ =>
       ret (PyStr "I'm sorry, I encountered an issue while processing your request. Please try again.")).

(** The [try] block of [handle_voice_input]. *)
Definition handle_voice_input_body (audio_data : bytes) (voice_type : string)
  : M (pyval * option bytes) :=
  let* transcript := transcribe_audio audio_data in
  match transcript with
  | Some (String _ _ as transcript) =>
      let* ai_response := process_user_input transcript in
      let* final_response := _handle_intent ai_response in
      let* audio_response := synthesize_speech final_response voice_type in
      ret (final_response, audio_response)
  | _ =>
      let error_response :=
        PyStr "I'm sorry, I couldn't understand what you said. Could you please try again?" in
      let* audio_response := synthesize_speech error_response voice_type in
      ret (error_response, audio_response)
  end.

Definition handle_voice_input (audio_data : bytes) (voice_type : string)
  : M (pyval * option bytes) :=
  try_except
    (handle_voice_input_body audio_data voice_type)
    (fun _ =>
       let error_response :=
         PyStr "I'm experiencing some technical difficulties. Please try again in a moment." in
       let* audio_response := synthesize_speech error_response voice_type in
       ret (error_response, audio_response)).

(** The [try] block of [handle_text_input]. *)
Definition handle_text_input_body (text_input : string) (voice_type : string)
  : M (pyval * option bytes) :=
  let* ai_response := process_user_input text_input in
  let* final_response := _handle_intent ai_response in
  let* audio_response := synthesize_speech final_response voice_type in
  ret (final_response, audio_response).

Definition handle_text_input (text_input : string) (voice_type : string)
  : M (pyval * option bytes) :=
  try_except
    (handle_text_input_body text_input voice_type)
    (fun _ =>
       ret (PyStr "I'm sorry, I encountered an error processing your request.",
            None)).

Definition clear_session : M unit :=
  fun st =>
    clear_conversation_history
      {| conversation_history := conversation_history st;
         current_session := ∅;
         trace := trace st |}.

Definition get_detailed_article (article_number : Z) : M string :=
  let* session := get_session in
  let last_news_data :=
    match session !! "last_news_data" with
    | Some v => v
    | None => PyList []
    end in
  let* invalid :=
    lift (if negb (py_truthy last_news_data) then Ok true
          else if article_number <? 1 then Ok true
          else let? n := py_len last_news_data in Ok (n <? article_number)) in
  if invalid : bool then
    ret "I don't have that article number. Please ask for a valid article number from the recent news."
  else
    let* article := lift (py_getitem last_news_data (article_number - 1)) in
    let* title := lift (py_get article "title" (PyStr "No title")) in
    let* description :=
      lift (py_get article "description"
              (PyStr "No description available")) in
    let* source := lift (py_get article "source" (PyStr "Unknown source")) in
    ret ("Here's more detail about article " ++ str_of_int article_number
         ++ ": " ++ py_format title ++ ". " ++ py_format description
         ++ " This story is from " ++ py_format source ++ ".").
End ConversationHandler.

(** ** main.py: the audio registry *)

(** [audio_storage[audio_id] = audio_response]. *)
Definition store_audio (audio_id : string) (audio_response : bytes)
    (audio_storage : gmap string bytes) : gmap string bytes :=
  <[audio_id := audio_response]> audio_storage.

(** The [try] block of [serve_audio]: the bytes of the response it returns. *)
Definition serve_audio_body (audio_id : string)
    (audio_storage : gmap string bytes) : result bytes * gmap string bytes :=
  match audio_storage !! audio_id with
  | Some audio_data => (Ok audio_data, delete audio_id audio_storage)
  | None => (Raise (HTTPException 404 "Audio not found"), audio_storage)
  end.

(** [serve_audio]: [except Exception] answers whatever the block raised,
    its own [HTTPException] included, with status 500. *)
Definition serve_audio (audio_id : string) (audio_storage : gmap string bytes)
  : result bytes * gmap string bytes :=
  match serve_audio_body audio_id audio_storage with
  | (Ok content, audio_storage) => (Ok content, audio_storage)
  | (Raise _, audio_storage) =>
      (Raise (HTTPException 500 "Error serving audio"), audio_storage)
  end.

(** ** The remaining operations of the services *)

(** [x[key]] for a string key: a missing key is a KeyError, a value that is
    no dict a TypeError. *)
Definition py_subscript (x : pyval) (key : string) : result pyval :=
  match x with
  | PyDict d =>
      match dict_get d key with
      | Some v => Ok v
      | None => Raise KeyError
      end
  | _ => Raise TypeError
  end.

(** [a or b]. *)
Definition py_or (a b : pyval) : pyval := if py_truthy a then a else b.

(** [x.lower()]: only a string has it. *)
Definition py_lower `{Runtime} (x : pyval) : result string :=
  match x with
  | PyStr s => Ok (str_lower s)
  | _ => Raise AttributeError
  end.

(** [await x]: no value of [pyval] can be awaited. *)
Definition py_await (x : pyval) : result pyval := Raise TypeError.

(** *** services/news_service.py: the formatter of the news endpoint *)

Module NewsService.
Section Format.
Context `{Runtime}.

(** The loop of [NewsService.format_news_for_speech]. *)
Fixpoint speech_loop (articles : list pyval) (speech_text : string)
  : result string :=
  match articles with
  | [] => Ok speech_text
  | article :: rest =>
      let? title := py_subscript article "title" in
      let? description := py_subscript article "description" in
      let description := py_or description (PyStr "No description available") in
      let? source := py_subscript article "source" in
      let? number := py_subscript article "number" in
      let speech_text :=
        speech_text ++ "News " ++ py_format number ++ ": " ++ py_format title
                    ++ ". " in
      let? speech_text :=
        if py_truthy description && negb (py_eq description title) then
          match description with
          | PyStr d =>
              let desc_words := take 20 (str_split d) in
              let short_description := str_join " " desc_words in
              let short_description :=
                if Nat.eqb (length desc_words) 20
                then short_description ++ "..."
                else short_description in
              Ok (speech_text ++ short_description ++ " ")
          | _ => Raise AttributeError
          end
        else Ok speech_text in
      speech_loop rest
        (speech_text ++ "Source: " ++ py_format source ++ "." ++ nl ++ nl)
  end.

Definition format_news_for_speech (articles : list pyval) (category : pyval)
  : result string :=
  match articles with
  | [] =>
      Ok ("Sorry, I couldn't fetch any news for " ++ py_format category
          ++ " at the moment.")
  | _ =>
      speech_loop articles
        ("Here are the top " ++ str_of_int (Z.of_nat (length articles)) ++ " "
         ++ py_format category ++ " news updates:" ++ nl ++ nl)
  end.
End Format.
End NewsService.

(** *** services/ai_service.py *)

(** The loop of [_format_basic_news_summary]:
    [for i, article in enumerate(articles[:5], i)]. *)
Fixpoint basic_summary_loop `{Runtime} (i : Z) (articles : list pyval)
    (summary : string) : result string :=
  match articles with
  | [] => Ok summary
  | article :: rest =>
      let? title := py_get article "title" (PyStr "No title") in
      let? source := py_get article "source" (PyStr "Unknown source") in
      basic_summary_loop (i + 1) rest
        (summary ++ "News " ++ str_of_int i ++ ": " ++ py_format title
                 ++ " from " ++ py_format source ++ ". ")
  end.

Definition _format_basic_news_summary `{Runtime} (articles : list pyval)
  : result string :=
  match articles with
  | [] => Ok "No news available at the moment."
  | _ => basic_summary_loop 1 (slice_to articles 5) ""
  end.

Definition get_conversation_summary : M string :=
  fun st =>
    match conversation_history st with
    | [] => (Ok "No conversation history available.", st)
    | history =>
        (Ok ("Conversation has " ++ str_of_int (Z.of_nat (length history))
             ++ " messages."), st)
    end.

Section Followup.
Context `{Runtime} `{World}.
(** [json.dumps(context, indent=2)] on a session. *)
Variable json_dumps : gmap string pyval -> string.

Definition followup_prompt (question : string) (context : gmap string pyval)
  : string :=
  nl ++ "The user asked a follow-up question about news: " ++ dq ++ question
  ++ dq ++ nl
  ++ "Context: " ++ json_dumps context ++ nl
  ++ nl
  ++ "Provide a helpful response as Akashvani AI. If they're asking for more details, " ++ nl
  ++ "news from another category, or want to search for specific topics, provide appropriate guidance." ++ nl.

Definition handle_followup_question (question : string)
    (context : gmap string pyval) : M string :=
  try_except
    (let* reply :=
       call_chat [{| role := "user";
                     content := followup_prompt question context |}] in
     lift (match reply with
           | Some c => Ok (str_strip c)
           | None => Raise AttributeError
           end))
    (fun _ =>
       ret "I'm sorry, could you please repeat your question? I want to make sure I understand what you're looking for.").

Definition handle_followup (user_input : string) : M string :=
  let* session := get_session in
  if decide (session = ∅) then
    ret "What would you like to know about? I can provide news updates from various categories."
  else handle_followup_question user_input session.
End Followup.

(** *** services/speech_service.py *)

(** [data.startswith(prefix)] and [needle in data] on bytes. *)
Fixpoint bytes_startswith (prefix data : bytes) : bool :=
  match prefix, data with
  | [], _ => true
  | p :: prefix', d :: data' => Byte.eqb p d && bytes_startswith prefix' data'
  | _ :: _, [] => false
  end.

Fixpoint bytes_contains (needle data : bytes) : bool :=
  bytes_startswith needle data ||
  match data with
  | [] => false
  | _ :: rest => bytes_contains needle rest
  end.

Definition validate_audio_format (audio_data : bytes) : bool :=
  let wav_header := [Byte.x52; Byte.x49; Byte.x46; Byte.x46] in
  let mp3_header := [Byte.x49; Byte.x44; Byte.x33] in
  bytes_startswith wav_header audio_data
  || bytes_startswith mp3_header audio_data
  || bytes_contains [Byte.x66; Byte.x74; Byte.x79; Byte.x70]
       (take 20 audio_data).

(** [get_available_voices], a plain function that returns a dict. *)
Definition get_available_voices : pyval :=
  PyDict [("female",
           PyDict [("name", PyStr "Asteria");
                   ("description", PyStr "Professional female voice");
                   ("model", PyStr "aura-asteria-en")]);
          ("male",
           PyDict [("name", PyStr "Orion");
                   ("description", PyStr "Professional male voice");
                   ("model", PyStr "aura-orion-en")])].

(** *** services/conversation_handler.py *)

Definition set_voice_preference (voice_type : string) : M unit :=
  fun st =>
    if existsb (String.eqb voice_type) ["male"; "female"] then
      (Ok tt,
       {| conversation_history := conversation_history st;
          current_session :=
            <["voice_preference" := PyStr voice_type]> (current_session st);
          trace := trace st |})
    else (Ok tt, st).

Definition get_voice_preference : M pyval :=
  fun st =>
    (Ok (match current_session st !! "voice_preference" with
         | Some v => v
         | None => PyStr "female"
         end), st).

(** The loop of [get_headlines_only]. *)
Fixpoint headlines_loop (news_articles headlines : list pyval)
  : result (list pyval) :=
  match news_articles with
  | [] => Ok headlines
  | article :: rest =>
      let? title := py_get article "title" (PyStr "") in
      let? source := py_get article "source" (PyStr "") in
      let? publishedAt := py_get article "publishedAt" (PyStr "") in
      headlines_loop rest
        (headlines ++ [PyDict [("title", title);
                               ("source", source);
                               ("publishedAt", publishedAt)]])
  end.

Definition get_headlines_only `{World} (category : pyval) : M (list pyval) :=
  try_except
    (let* news_articles := get_top_headlines category "us" 5 in
     lift (headlines_loop news_articles []))
    (fun _ => ret []).

Definition get_available_categories : string :=
  "I can provide news updates from these categories: "
  ++ str_join ", " NEWS_CATEGORIES ++ ". Which would you like to hear about?".

(** [get_session_info] builds its dict entry by entry; the last entry
    awaits the dict that [get_available_voices] returns. *)
Definition get_session_info : M pyval :=
  let* session_data := get_session in
  let* conversation_summary := get_conversation_summary in
  let* available_voices := lift (py_await get_available_voices) in
  ret (PyDict [("session_data", PyDict (map_to_list session_data));
               ("conversation_summary", PyStr conversation_summary);
               ("available_voices", available_voices)]).

(** *** main.py: the endpoints around the conversation handler *)

(** The JSON body of [/api/text] and [/api/voice]. *)
Record api_reply : Type := {
  text_response : pyval;
  audio_available : bool;
  audio_url : option string;
  headlines_only : option (list pyval)
}.

(** The process: the global conversation handler and [audio_storage]. *)
Record server : Type := {
  handler : state;
  audio_storage : gmap string bytes
}.

Section Endpoints.
Context `{Runtime} `{World}.

(** The block of both endpoints that looks for headlines to display: when
    the response mentions headlines or news, the first category, in the
    order of [Config.NEWS_CATEGORIES], that occurs in [searched] is looked
    up.  [/api/text] searches the lowercased request text, [/api/voice] the
    lowercased response. *)
Definition display_headlines (text_response : pyval)
    (searched : result string) : M (option (list pyval)) :=
  let* lowered := lift (py_lower text_response) in
  if str_contains "headline" lowered || str_contains "news" lowered then
    let* searched := lift searched in
    match find (fun category => str_contains category searched)
            NEWS_CATEGORIES with
    | Some category =>
        let* headlines := get_headlines_only (PyStr category) in
        ret (Some headlines)
    | None => ret None
    end
  else ret None.

(** The block of both endpoints that stores the audio under a fresh
    identifier [audio_id] (a UUID) and builds the reply. *)
Definition reply_with_audio (audio_id : string) (text_response : pyval)
    (audio_response : option bytes) (headlines : option (list pyval))
    (audio_storage : gmap string bytes) : api_reply * gmap string bytes :=
  match audio_response with
  | Some ((_ :: _) as audio) =>
      ({| text_response := text_response;
          audio_available := true;
          audio_url := Some ("/api/audio/" ++ audio_id);
          headlines_only := headlines |},
       <[audio_id := audio]> audio_storage)
  | _ =>
      ({| text_response := text_response;
          audio_available :=
            match audio_response with Some _ => true | None => false end;
          audio_url := None;
          headlines_only := headlines |},
       audio_storage)
  end.

(** [POST /api/text]. *)
Definition api_text (audio_id text voice_type : string) (srv : server)
  : result api_reply * server :=
  match
    (let* response := handle_text_input text voice_type in
     let* headlines := display_headlines response.1 (Ok (str_lower text)) in
     ret (response, headlines)) (handler srv)
  with
  | (Ok (text_response, audio_response, headlines), st) =>
      let reply :=
        reply_with_audio audio_id text_response audio_response headlines
          (audio_storage srv) in
      (Ok reply.1, {| handler := st; audio_storage := reply.2 |})
  | (Raise _, st) =>
      (Raise (HTTPException 500 "Error processing text input"),
       {| handler := st; audio_storage := audio_storage srv |})
  end.

(** [POST /api/voice]. *)
Definition api_voice (audio_id : string) (audio_data : bytes)
    (voice_type : string) (srv : server) : result api_reply * server :=
  match
    (let* response := handle_voice_input audio_data voice_type in
     let* headlines := display_headlines response.1 (py_lower response.1) in
     ret (response, headlines)) (handler srv)
  with
  | (Ok (text_response, audio_response, headlines), st) =>
      let reply :=
        reply_with_audio audio_id text_response audio_response headlines
          (audio_storage srv) in
      (Ok reply.1, {| handler := st; audio_storage := reply.2 |})
  | (Raise _, st) =>
      (Raise (HTTPException 500 "Error processing voice input"),
       {| handler := st; audio_storage := audio_storage srv |})
  end.

(** [GET /api/audio/{audio_id}] on the process. *)
Definition api_audio (audio_id : string) (srv : server)
  : result bytes * server :=
  let served := serve_audio audio_id (audio_storage srv) in
  (served.1, {| handler := handler srv; audio_storage := served.2 |}).

(** [GET /api/session]. *)
Definition api_session (srv : server) : result pyval * server :=
  match get_session_info (handler srv) with
  | (Ok session_info, st) =>
      (Ok session_info, {| handler := st; audio_storage := audio_storage srv |})
  | (Raise _, st) =>
      (Raise (HTTPException 500 "Error retrieving session information"),
       {| handler := st; audio_storage := audio_storage srv |})
  end.

(** [POST /api/session/clear]. *)
Definition api_clear_session (srv : server) : result string * server :=
  match clear_session (handler srv) with
  | (Ok _, st) =>
      (Ok "Session cleared successfully",
       {| handler := st; audio_storage := audio_storage srv |})
  | (Raise _, st) =>
      (Raise (HTTPException 500 "Error clearing session"),
       {| handler := st; audio_storage := audio_storage srv |})
  end.
End Endpoints.

(** ** A runtime and worlds for running the model on concrete inputs *)

(** [str.lower], [str.split] and [str.strip] on ASCII text. *)
Definition ascii_lower (c : ascii) : ascii :=
  let n := nat_of_ascii c in
  if ((65 <=? n) && (n <=? 90))%nat then ascii_of_nat (n + 32) else c.

Fixpoint ascii_str_lower (s : string) : string :=
  match s with
  | EmptyString => EmptyString
  | String c rest => String (ascii_lower c) (ascii_str_lower rest)
  end.

Definition ascii_is_space (c : ascii) : bool :=
  let n := nat_of_ascii c in
  ((9 <=? n) && (n <=? 13) || (28 <=? n) && (n <=? 32))%nat.

(** Splits at whitespace; [word] is the word being read, reversed. *)
Fixpoint ascii_split_go (s : string) (word : list ascii) : list string :=
  let flush rest :=
    match word with
    | [] => rest
    | _ => string_of_list_ascii (rev word) :: rest
    end in
  match s with
  | EmptyString => flush []
  | String c rest =>
      if ascii_is_space c then flush (ascii_split_go rest [])
      else ascii_split_go rest (c :: word)
  end.

Definition ascii_str_split (s : string) : list string := ascii_split_go s [].

Fixpoint ascii_lstrip (s : string) : string :=
  match s with
  | String c rest => if ascii_is_space c then ascii_lstrip rest else s
  | EmptyString => EmptyString
  end.

Definition ascii_str_strip (s : string) : string :=
  let rev_string s := string_of_list_ascii (rev (list_ascii_of_string s)) in
  rev_string (ascii_lstrip (rev_string (ascii_lstrip s))).

(** [json.loads] on the documents that are a bare literal: [null], [true],
    [false] or an unsigned decimal integer.  Text that is no JSON document
    is rejected. *)
Fixpoint decimal_value (s : string) (acc : Z) : option Z :=
  match s with
  | EmptyString => Some acc
  | String c rest =>
      let n := nat_of_ascii c in
      if ((48 <=? n) && (n <=? 57))%nat
      then decimal_value rest (10 * acc + Z.of_nat (n - 48))
      else None
  end.

Definition literal_json_loads (s : string) : option pyval :=
  if String.eqb s "null" then Some PyNone
  else if String.eqb s "true" then Some (PyBool true)
  else if String.eqb s "false" then Some (PyBool false)
  else match s with
       | EmptyString => None
       | String c rest =>
           if String.eqb s "0" then Some (PyInt 0)
           else if Ascii.eqb c "0" then None
           else PyInt <$> decimal_value s 0
       end.

(** A reply of the language model that asks for a search and names no
    topic: an object with the keys intent, search_query (empty), response
    and action. *)
Definition empty_search_reply : string :=
  "{" ++ dq ++ "intent" ++ dq ++ ": " ++ dq ++ "news_search" ++ dq ++ ", "
  ++ dq ++ "search_query" ++ dq ++ ": " ++ dq ++ dq ++ ", "
  ++ dq ++ "response" ++ dq ++ ": " ++ dq ++ "Searching." ++ dq ++ ", "
  ++ dq ++ "action" ++ dq ++ ": " ++ dq ++ "search_news" ++ dq ++ "}".

(** [json.loads] on the documents the examples use: the object above and
    the bare literals. *)
Definition sample_json_loads (s : string) : option pyval :=
  if String.eqb s empty_search_reply
  then Some (PyDict [("intent", PyStr "news_search");
                     ("search_query", PyStr "");
                     ("response", PyStr "Searching.");
                     ("action", PyStr "search_news")])
  else literal_json_loads s.

Definition ascii_runtime : Runtime :=
  {| str_lower := ascii_str_lower;
     str_split := ascii_str_split;
     str_strip := ascii_str_strip;
     json_loads := sample_json_loads;
     str_of_other := fun x =>
       match x with
       | PyNone => "None"
       | PyBool true => "True"
       | PyBool false => "False"
       | _ => "<object>"
       end |}.

(** A fresh process: [ConversationHandler.__init__]. *)
Definition initial_state : state :=
  {| conversation_history := [];
     current_session := {["voice_preference" := PyStr "female"]};
     trace := [] |}.

(** A world whose language model always replies [reply], whose news API
    always answers [news], whose transcriber hears [heard], and whose
    synthesizer returns one byte of audio. *)
Definition constant_world (reply : string) (news : result pyval)
    (heard : option string) : World :=
  {| deepgram_transcribe := fun _ _ => Ok heard;
     openai_chat := fun _ _ => Ok (Some reply);
     newsapi_get := fun _ _ => news;
     deepgram_speak := fun _ _ _ => Ok (Some [Byte.x52]) |}.

(** A world in which the news API is down for [sports] only. *)
Definition sports_down_world (news : pyval) : World :=
  {| deepgram_transcribe := fun _ _ => Ok None;
     openai_chat := fun _ _ => Raise (ProviderError "quota");
     newsapi_get := fun _ query =>
       match query with
       | TopHeadlines (PyStr "sports") _ _ => Raise (ProviderError "503")
       | _ => Ok news
       end;
     deepgram_speak := fun _ _ _ => Raise (ProviderError "down") |}.

(** A provider article whose keys are all present. *)
Definition full_article (title description : string) : pyval :=
  PyDict [("source", PyDict [("id", PyNone); ("name", PyStr "Wire")]);
          ("title", PyStr title);
          ("description", PyStr description);
          ("url", PyStr "https://example.org/a");
          ("publishedAt", PyStr "2024-01-01T00:00:00Z")].

(** The first [n] words of a run of numbered words, for descriptions of a
    known length: [w1 w2 ... wn]. *)
Fixpoint numbered_words (n : nat) : list string :=
  match n with
  | O => []
  | S k => numbered_words k ++ ["w" ++ str_of_int (Z.of_nat n)]
  end.

(** A reply of the language model that answers in words and leaves the
    words out: an object with the keys action and response (null). *)
Definition null_response_reply : string :=
  "{" ++ dq ++ "action" ++ dq ++ ": " ++ dq ++ "respond_only" ++ dq ++ ", "
  ++ dq ++ "response" ++ dq ++ ": null}".

(** [ascii_runtime] with a [json.loads] that decodes this document too. *)
Definition null_response_runtime : Runtime :=
  {| str_lower := ascii_str_lower;
     str_split := ascii_str_split;
     str_strip := ascii_str_strip;
     json_loads := fun s =>
       if String.eqb s null_response_reply
       then Some (PyDict [("action", PyStr "respond_only");
                          ("response", PyNone)])
       else sample_json_loads s;
     str_of_other := @str_of_other ascii_runtime |}.

(** ** The words of the specification *)

(** Some word of [words] occurs in [text]. *)
Definition mentions (words : list string) (text : string) : Prop :=
  ∃ w, w ∈ words ∧ str_contains w text = true.

(** [c] is the first entry of [words], in the order of the list, that occurs
    in [text]. *)
Definition first_mentioned (words : list string) (text c : string) : Prop :=
  ∃ before after,
    words = (before ++ c :: after)%list ∧
    str_contains c text = true ∧
    ∀ c', c' ∈ before → str_contains c' text = false.

(** The audio [synthesize_speech] returns in a world state. *)
Definition speech_outcome `{World} (trace : list event) (text : pyval)
    (voice_type : string) : option bytes :=
  match deepgram_speak trace (selected_voice voice_type) text with
  | Ok (Some audio_data) =>
      match py_slice_to text 50 with
      | Ok _ => Some audio_data
      | Raise _ => None
      end
  | _ => None
  end.

(** The articles [get_top_headlines] and [search_news] return for a provider
    answer. *)
Definition headlines_of (answer : result pyval) (limit : Z) : list pyval :=
  match answer with
  | Ok data =>
      match articles_of_response data limit with
      | Ok formatted_articles => formatted_articles
      | Raise _ => []
      end
  | Raise _ => []
  end.

Section Outcomes.
Context `{Runtime} `{World}.

(** The state a classification call leaves behind: the user message is
    always appended, the reply only when one arrived. *)
Definition after_classification (user_text : string) (st : state) : state :=
  let history :=
    (conversation_history st ++ [{| role := "user"; content := user_text |}])%list in
  {| conversation_history :=
       match openai_chat (trace st) (request_messages history) with
       | Ok (Some c) =>
           (history ++ [{| role := "assistant"; content := str_strip c |}])%list
       | _ => history
       end;
     current_session := current_session st;
     trace := (trace st ++ [ChatCompletion (request_messages history)])%list |}.
End Outcomes.

(** A run of classification calls within one process, one per user text. *)
Fixpoint classify_each `{Runtime} `{World} (texts : list string) : M unit :=
  match texts with
  | [] => ret tt
  | user_text :: rest =>
      let* _ := process_user_input user_text in
      classify_each rest
  end.

(** The history entry of a user text. *)
Definition user_message (user_text : string) : message :=
  {| role := "user"; content := user_text |}.

(** [messages] is an inference request for [user_text] made when the stored
    history was [history]: the system prompt, then a window that is the
    end of the history with the new user message, at most 5 entries long
    and as long as the history allows. *)
Definition windowed_request (history : list message) (user_text : string)
    (messages : list message) : Prop :=
  ∃ window,
    messages = {| role := "system"; content := system_prompt |} :: window ∧
    window `suffix_of` (history ++ [user_message user_text])%list ∧
    length window = ((length history + 1) `min` 5)%nat ∧
    last window = Some (user_message user_text).

(** The same memory with another record of provider calls. *)
Definition with_trace (st : state) (calls : list event) : state :=
  {| conversation_history := conversation_history st;
     current_session := current_session st;
     trace := calls |}.

(** The request [get_all_categories_news] makes for a category. *)
Definition category_query (limit_per_category : Z) (category : string)
  : news_query :=
  TopHeadlines (PyStr category) "us" limit_per_category.

(** The entries a batch over [categories] yields when the calls made before
    it are [calls]: each category with the articles its own request gives. *)
Fixpoint category_entries `{World} (categories : list string)
    (limit_per_category : Z) (calls : list event)
  : list (string * list pyval) :=
  match categories with
  | [] => []
  | category :: rest =>
      let query := category_query limit_per_category category in
      (category, headlines_of (newsapi_get calls query) limit_per_category)
        :: category_entries rest limit_per_category (calls ++ [NewsGet query])
  end.

(** The value of a field of a provider article: the empty string when the
    key is absent, otherwise whatever the provider sent. *)
Definition field_or_empty (raw : list (string * pyval)) (key : string) : pyval :=
  match dict_get raw key with
  | Some v => v
  | None => PyStr ""
  end.

(** The display name of the source of a provider article. *)
Definition source_name (raw : list (string * pyval)) : pyval :=
  match dict_get raw "source" with
  | Some (PyDict source) => field_or_empty source "name"
  | _ => PyStr ""
  end.

(** The Article with number [number] for the provider article [raw]. *)
Definition normalized_article (number : Z) (raw : list (string * pyval))
  : pyval :=
  PyDict [("number", PyInt number);
          ("title", field_or_empty raw "title");
          ("description", field_or_empty raw "description");
          ("source", source_name raw);
          ("url", field_or_empty raw "url");
          ("publishedAt", field_or_empty raw "publishedAt")].

(** The list of articles in a provider answer, when it has one. *)
Definition provider_articles (answer : result pyval) : list pyval :=
  match answer with
  | Ok (PyDict data) =>
      match dict_get data "articles" with
      | Some (PyList raw_articles) => raw_articles
      | _ => []
      end
  | _ => []
  end.

(** [formatted] holds normalized articles of a provider answer: at most
    [limit] of them when [limit] is not negative, and the article at
    position [k] (from 0) is the normalized form, numbered [k + 1], of the
    provider's article at that position.  How many there are is the matter
    of [exact_batch] below. *)
Definition normalized_batch (limit : Z) (answer : result pyval)
    (formatted : list pyval) : Prop :=
  (0 <= limit → (length formatted ≤ Z.to_nat limit)%nat) ∧
  ∀ (k : nat) (article : pyval),
    formatted !! k = Some article →
    ∃ raw,
      provider_articles answer !! k = Some (PyDict raw) ∧
      article = normalized_article (Z.of_nat k + 1) raw.

(** An Article as the formatter meets it: a dictionary whose description,
    when present, is a string or null. *)
Definition is_article (article : pyval) : Prop :=
  ∃ raw,
    article = PyDict raw ∧
    ∀ v, dict_get raw "description" = Some v → v = PyNone ∨ ∃ d, v = PyStr d.

(** What is read out after the title: nothing for a description that is
    null, empty or equal to the title; otherwise the first 25 words of the
    description and a space, with an ellipsis between them when the
    description has more than 25 words and none when it has fewer. *)
Definition spoken_summary `{Runtime} (title description : pyval)
    (summary : string) : Prop :=
  match description with
  | PyStr d =>
      if String.eqb d "" || py_eq description title then summary = ""
      else
        ∃ ellipsis,
          summary = str_join " " (take 25 (str_split d)) ++ ellipsis ++ " " ∧
          ((25 < length (str_split d))%nat → ellipsis = "...") ∧
          ((length (str_split d) < 25)%nat → ellipsis = "")
  | _ => summary = ""
  end.

(** The passage read out for the article at position [k] (from 0). *)
Definition headline_entry `{Runtime} (k : nat) (title : pyval)
    (summary : string) : string :=
  "Headline " ++ str_of_int (Z.of_nat k + 1) ++ ": " ++ py_format title
  ++ ". " ++ summary ++ nl ++ nl.

(** The session after the update of a news-fetch turn, and after the update
    of a search turn. *)
Definition session_after_fetch (session : gmap string pyval)
    (category fetched : pyval) : gmap string pyval :=
  <["last_action" := PyStr "news_fetch"]>
    (<["last_news_data" := fetched]> (<["last_category" := category]> session)).

Definition session_after_search (session : gmap string pyval)
    (search_query : pyval) (found : list pyval) : gmap string pyval :=
  <["last_action" := PyStr "news_search"]>
    (<["last_news_data" := PyList found]>
       (<["last_search" := search_query]> session)).

(** The articles a news-fetch turn for [category] fetches when the calls
    made before it are [calls]: the batch over all categories for
    [general], the top 5 headlines of the category otherwise. *)
Definition fetched_headlines `{World} (calls : list event) (category : pyval)
  : list pyval :=
  headlines_of (newsapi_get calls (TopHeadlines category "us" 5)) 5.

Definition fetched_news `{World} (calls : list event) (category : pyval)
  : pyval :=
  if py_eq category (PyStr "general")
  then all_news_value (category_entries NEWS_CATEGORIES 3 calls)
  else PyList (fetched_headlines calls category).

(** The articles a search turn finds. *)
Definition found_articles `{World} (calls : list event) (search_query : pyval)
  : list pyval :=
  headlines_of (newsapi_get calls (Everything search_query 5)) 5.

(** The value of a key of the classifier's answer, with the default
    [_handle_intent] and its branches give it. *)
Definition answer_action (ai_response : list (string * pyval)) : pyval :=
  match dict_get ai_response "action" with
  | Some v => v
  | None => PyStr "respond_only"
  end.

Definition answer_category (ai_response : list (string * pyval)) : pyval :=
  match dict_get ai_response "category" with
  | Some v => v
  | None => PyStr "general"
  end.

Definition answer_search_query (ai_response : list (string * pyval)) : pyval :=
  field_or_empty ai_response "search_query".

(** The fetched articles of a turn can be read out: when the classifier's
    answer leads to a fetch for one category or to a search for a topic, what
    the provider returns are Articles. *)
Definition speakable_fetch `{World} (ai_response : pyval) (calls : list event)
  : Prop :=
  match ai_response with
  | PyDict d =>
      if py_eq (answer_action d) (PyStr "fetch_news") then
        py_eq (answer_category d) (PyStr "general") = false →
        Forall is_article (fetched_headlines calls (answer_category d))
      else if py_eq (answer_action d) (PyStr "search_news") then
        py_truthy (answer_search_query d) = true →
        Forall is_article (found_articles calls (answer_search_query d))
      else True
  | _ => True
  end.

(** The session a turn leaves behind, by the action of the classifier's
    answer: updated after a fetch and after a search for a topic, as it was
    otherwise. *)
Definition session_after_answer `{World} (ai_response : pyval) (st : state)
  : gmap string pyval :=
  match ai_response with
  | PyDict d =>
      if py_eq (answer_action d) (PyStr "fetch_news") then
        session_after_fetch (current_session st) (answer_category d)
          (fetched_news (trace st) (answer_category d))
      else if py_eq (answer_action d) (PyStr "search_news") then
        if py_truthy (answer_search_query d) then
          session_after_search (current_session st) (answer_search_query d)
            (found_articles (trace st) (answer_search_query d))
        else current_session st
      else current_session st
  | _ => current_session st
  end.

(** The entry [get_headlines_only] shows for a provider article: its title,
    the name of its source and its date, the empty string for what is
    absent. *)
Definition headline_view (raw : list (string * pyval)) : pyval :=
  PyDict [("title", field_or_empty raw "title");
          ("source", source_name raw);
          ("publishedAt", field_or_empty raw "publishedAt")].

(** The line of the briefing for a category: the title of its first article,
    nothing for a category without articles. *)
Definition briefing_line `{Runtime} (entry : string * list pyval) : string :=
  match entry.2 with
  | PyDict raw :: _ =>
      "Top " ++ entry.1 ++ " headline: "
      ++ py_format (match dict_get raw "title" with
                    | Some v => v
                    | None => PyStr "No title available"
                    end)
      ++ "." ++ nl ++ nl
  | _ => ""
  end.

(** The first article of a category, when there is one, is a dictionary. *)
Definition first_is_dict (entry : string * list pyval) : Prop :=
  match entry.2 with
  | article :: _ => ∃ raw, article = PyDict raw
  | [] => True
  end.

(** The sentence of the basic summary for the article at position [k]
    (from 0). *)
Definition basic_line `{Runtime} (k : nat) (raw : list (string * pyval))
  : string :=
  "News " ++ str_of_int (Z.of_nat k + 1) ++ ": "
  ++ py_format (match dict_get raw "title" with
                | Some v => v
                | None => PyStr "No title"
                end)
  ++ " from "
  ++ py_format (match dict_get raw "source" with
                | Some v => v
                | None => PyStr "Unknown source"
                end)
  ++ ". ".

(** A provider article that normalization accepts: a dictionary whose
    source, when it has one, is a dictionary too. *)
Definition normalizable (article : pyval) : Prop :=
  ∃ raw,
    article = PyDict raw ∧
    (dict_get raw "source" = None ∨
     ∃ source, dict_get raw "source" = Some (PyDict source)).

(** [formatted] is the batch for a provider answer: with [wanted] the
    provider's articles up to the limit, it has at most [limit] articles
    when [limit] is not negative; it has one article for each of [wanted]
    when all of them can be normalized, and is empty as soon as one of them
    cannot; and the article at position [k] (from 0) is the normalized form,
    numbered [k + 1], of the provider's article at that position. *)
Definition exact_batch (limit : Z) (answer : result pyval)
    (formatted : list pyval) : Prop :=
  let wanted := slice_to (provider_articles answer) limit in
  (0 <= limit → (length formatted ≤ Z.to_nat limit)%nat) ∧
  (Forall normalizable wanted → length formatted = length wanted) ∧
  (¬ Forall normalizable wanted → formatted = []) ∧
  ∀ (k : nat) (article : pyval),
    formatted !! k = Some article →
    ∃ raw,
      provider_articles answer !! k = Some (PyDict raw) ∧
      article = normalized_article (Z.of_nat k + 1) raw.

(** What a turn that neither fetches nor searches hands back: the value
    the classifier's answer holds under [response], whatever it is, and the
    fixed offer of help when the key is absent.  A turn that fetches or
    searches has none, nor has an answer that is no object. *)
Definition drafted_response (ai_response : pyval) : option pyval :=
  match ai_response with
  | PyDict d =>
      if py_eq (answer_action d) (PyStr "fetch_news") then None
      else if py_eq (answer_action d) (PyStr "search_news") then None
      else Some (match dict_get d "response" with
                 | Some v => v
                 | None => PyStr "I'm here to help you with news updates!"
                 end)
  | _ => None
  end.

(** The first component of what a turn returns for a classifier's answer:
    the drafted response as it is, a text in every other case. *)
Definition turn_response (ai_response response : pyval) : Prop :=
  match drafted_response ai_response with
  | Some drafted => response = drafted
  | None => ∃ text, response = PyStr text
  end.

(** * Properties *)

(** ** Strings and dictionaries *)

Lemma prefix_app_l (a b s : string) :
  String.prefix (a ++ b) s = true → String.prefix a s = true.
Proof.
  revert s. induction a as [|c a IH]; intros [|c' s]; simpl; try done.
  destruct (ascii_dec c c'); [apply IH | done].
Qed.

Lemma str_contains_unfold (needle haystack : string) :
  str_contains needle haystack =
  String.prefix needle haystack ||
  match haystack with
  | EmptyString => false
  | String _ rest => str_contains needle rest
  end.
Proof. by destruct haystack. Qed.

Lemma str_contains_app_l (a b s : string) :
  str_contains (a ++ b) s = true → str_contains a s = true.
Proof.
  induction s as [|c s IH]; intros Hc;
    rewrite str_contains_unfold in Hc; rewrite str_contains_unfold.
  - apply orb_true_iff in Hc as [Hc|Hc]; [|done].
    apply prefix_app_l in Hc. by rewrite Hc.
  - apply orb_true_iff in Hc as [Hc|Hc].
    + apply prefix_app_l in Hc. by rewrite Hc.
    + rewrite (IH Hc). apply orb_true_r.
Qed.

Lemma existsb_mentions (words : list string) (text : string) :
  existsb (fun word => str_contains word text) words = true
  ↔ mentions words text.
Proof.
  rewrite existsb_exists. unfold mentions.
  split; intros (w & Hw & Hc); exists w; split; try done;
    by apply list_elem_of_In.
Qed.

Lemma fallback_category_Some (categories : list string) (text c : string) :
  fallback_category categories text = Some c →
  first_mentioned categories text c.
Proof.
  induction categories as [|c0 cs IH]; simpl; [done|].
  destruct (str_contains c0 text) eqn:E0; simpl.
  - intros [= <-]. exists [], cs. split_and!; [done..|].
    intros c' Hc'. by apply elem_of_nil in Hc'.
  - destruct (str_contains (c0 ++ " news") text) eqn:E1.
    + apply str_contains_app_l in E1. congruence.
    + intros (before & after & -> & Hc & Hb)%IH.
      exists (c0 :: before), after. split_and!; [done..|].
      intros c' [->|Hc']%elem_of_cons; [done | by apply Hb].
Qed.

Lemma fallback_category_None (categories : list string) (text : string) :
  fallback_category categories text = None ↔ ¬ mentions categories text.
Proof.
  induction categories as [|c0 cs IH]; simpl.
  - split; [|done]. intros _ (w & Hw & _). by apply elem_of_nil in Hw.
  - destruct (str_contains c0 text) eqn:E0; simpl.
    + split; [done|]. intros Hn. destruct Hn. exists c0. split; [left | done].
    + destruct (str_contains (c0 ++ " news") text) eqn:E1.
      { apply str_contains_app_l in E1. congruence. }
      rewrite IH. split; intros Hn (w & Hw & Hc); apply Hn.
      * apply elem_of_cons in Hw as [->|Hw]; [congruence|]. by exists w.
      * exists w. split; [by right | done].
Qed.

Lemma first_mentioned_mentions (words : list string) (text c : string) :
  first_mentioned words text c → c ∈ words ∧ str_contains c text = true.
Proof.
  intros (before & after & -> & Hc & _). split; [|done].
  apply elem_of_app. right. left.
Qed.

(** ** What one call of each service does

    None of the services lets an exception escape, and each of them makes
    exactly the provider calls listed here. *)

Section Services.
Context `{R : Runtime} `{W : World}.

Lemma synthesize_speech_run (text : pyval) (voice_type : string) (st : state) :
  synthesize_speech text voice_type st =
  (Ok (speech_outcome (trace st) text voice_type),
   record_call (Speak (selected_voice voice_type) text) st).
Proof.
  unfold synthesize_speech, speech_outcome, try_except, bind, call_speak,
    lift, ret.
  destruct (deepgram_speak _ _ _) as [[audio_data|]|e]; try done.
  by destruct (py_slice_to text 50).
Qed.

Lemma transcribe_audio_run (audio_data : bytes) (st : state) :
  transcribe_audio audio_data st =
  (Ok (match deepgram_transcribe (trace st) audio_data with
       | Ok transcript => transcript
       | Raise _ => None
       end),
   record_call (Transcribe audio_data) st).
Proof.
  unfold transcribe_audio, try_except, bind, call_transcribe, ret.
  by destruct (deepgram_transcribe _ _) as [[transcript|]|e].
Qed.

Lemma get_top_headlines_run (category : pyval) (country : string)
    (limit : Z) (st : state) :
  let query := TopHeadlines category country limit in
  get_top_headlines category country limit st =
  (Ok (headlines_of (newsapi_get (trace st) query) limit),
   record_call (NewsGet query) st).
Proof.
  unfold get_top_headlines, headlines_of, try_except, bind, call_news,
    lift, ret. simpl.
  destruct (newsapi_get _ _) as [data|e]; [|done].
  by destruct (articles_of_response data limit).
Qed.

Lemma search_news_run (query : pyval) (limit : Z) (st : state) :
  search_news query limit st =
  (Ok (headlines_of (newsapi_get (trace st) (Everything query limit)) limit),
   record_call (NewsGet (Everything query limit)) st).
Proof.
  unfold search_news, headlines_of, try_except, bind, call_news, lift, ret.
  destruct (newsapi_get _ _) as [data|e]; [|done].
  by destruct (articles_of_response data limit).
Qed.

Lemma process_user_input_run (user_text : string) (st : state) :
  ∃ ai_response,
    process_user_input user_text st =
    (Ok ai_response, after_classification user_text st).
Proof.
  unfold process_user_input, after_classification, try_except, bind,
    history_append, get_history, call_chat, lift, ret, record_call. simpl.
  destruct (openai_chat _ _) as [[c|]|e]; simpl; eauto.
  destruct (json_loads _); eauto.
Qed.
End Services.

(** ** The fallback classifier *)

Section Fallback.
Context `{R : Runtime} `{W : World}.

(** Claim C2, as the code has it.  When the reply of the language model
    does not decode as JSON, [process_user_input] answers with
    [_parse_fallback_response], which decides on the lowercased user text in
    this order: the first of the seven category names that occurs in it
    gives news_category / fetch_news for that category; otherwise one of
    news, headlines, updates gives news_category / fetch_news for the
    category general; otherwise one of the five greetings gives
    greeting / respond_only with the fixed introduction; otherwise
    general_conversation / respond_only with the model's text, stripped of
    the white space around it, as the response.  For the text
    [sports news please] the category is sports.  A reply that decodes as
    JSON, of whatever shape, is returned as decoded and the fallback is not
    run. *)
Theorem fallback_precedence (ai_response user_text : string) :
  let text := str_lower user_text in
  let answer := _parse_fallback_response ai_response user_text in
  (mentions NEWS_CATEGORIES text →
     ∃ category,
       first_mentioned NEWS_CATEGORIES text category ∧
       answer =
         [("intent", PyStr "news_category");
          ("category", PyStr category);
          ("response",
           PyStr ("Let me get the latest " ++ category ++ " news for you."));
          ("action", PyStr "fetch_news")]) ∧
  (¬ mentions NEWS_CATEGORIES text →
   mentions ["news"; "headlines"; "updates"] text →
     answer =
       [("intent", PyStr "news_category");
        ("category", PyStr "general");
        ("response", PyStr "Let me get the latest news updates for you.");
        ("action", PyStr "fetch_news")]) ∧
  (¬ mentions NEWS_CATEGORIES text →
   ¬ mentions ["news"; "headlines"; "updates"] text →
   mentions ["hello"; "hi"; "hey"; "good morning"; "good evening"] text →
     answer =
       [("intent", PyStr "greeting");
        ("response",
         PyStr "Hello! I'm Akashvani AI, your voice assistant for news updates. Ask me for news from any category like technology, politics, sports, or entertainment!");
        ("action", PyStr "respond_only")]) ∧
  (¬ mentions NEWS_CATEGORIES text →
   ¬ mentions ["news"; "headlines"; "updates"] text →
   ¬ mentions ["hello"; "hi"; "hey"; "good morning"; "good evening"] text →
     answer =
       [("intent", PyStr "general_conversation");
        ("response", PyStr ai_response);
        ("action", PyStr "respond_only")]) ∧
  (str_lower "sports news please" = "sports news please" →
     let sports := _parse_fallback_response ai_response "sports news please" in
     dict_get sports "intent" = Some (PyStr "news_category") ∧
     dict_get sports "category" = Some (PyStr "sports") ∧
     dict_get sports "action" = Some (PyStr "fetch_news")) ∧
  (∀ st reply,
     openai_chat (trace st)
       (request_messages
          (conversation_history st
             ++ [{| role := "user"; content := user_text |}])) =
       Ok (Some reply) →
     json_loads (str_strip reply) = None →
     (process_user_input user_text st).1 =
       Ok (PyDict (_parse_fallback_response (str_strip reply) user_text))) ∧
  (∀ st reply decoded,
     openai_chat (trace st)
       (request_messages
          (conversation_history st
             ++ [{| role := "user"; content := user_text |}])) =
       Ok (Some reply) →
     json_loads (str_strip reply) = Some decoded →
     (process_user_input user_text st).1 = Ok decoded).
Proof.
  intros text answer. subst answer. unfold _parse_fallback_response.
  fold text. split_and!.
  - intros Hm. destruct (fallback_category _ _) as [c|] eqn:Ec.
    + exists c. split; [by apply fallback_category_Some | done].
    + by apply fallback_category_None in Ec.
  - intros Hn%fallback_category_None Hm%existsb_mentions.
    by rewrite Hn, Hm.
  - intros Hn%fallback_category_None Hnews Hm%existsb_mentions.
    rewrite Hn, Hm.
    destruct (existsb _ ["news"; _; _]) eqn:E; [|done].
    by apply existsb_mentions in E.
  - intros Hn%fallback_category_None Hnews Hgreet. rewrite Hn.
    destruct (existsb _ ["news"; _; _]) eqn:E.
    { by apply existsb_mentions in E. }
    destruct (existsb _ ["hello"; _; _; _; _]) eqn:E'; [|done].
    by apply existsb_mentions in E'.
  - intros ->. by vm_compute.
  - intros st reply Hchat Hjson.
    unfold process_user_input, try_except, bind, history_append,
      get_history, call_chat, lift, ret. simpl.
    rewrite Hchat. simpl. by rewrite Hjson.
  - intros st reply decoded Hchat Hjson.
    unfold process_user_input, try_except, bind, history_append,
      get_history, call_chat, lift, ret. simpl.
    rewrite Hchat. simpl. by rewrite Hjson.
Qed.
End Fallback.

(** With the ASCII runtime: the model replied with prose, which does not
    decode, and the user typed [sports news please]. *)
Lemma fallback_precedence_witness :
  let W := constant_world "Here you go!" (Ok PyNone) None in
  dict_get
    (@_parse_fallback_response ascii_runtime "Here you go!"
       "sports news please") "category" = Some (PyStr "sports") ∧
  (@process_user_input ascii_runtime W "sports news please" initial_state).1 =
    Ok (PyDict (@_parse_fallback_response ascii_runtime "Here you go!"
                  "sports news please")) ∧
  ∃ category,
    first_mentioned NEWS_CATEGORIES "sports news please" category.
Proof.
  intros W.
  pose proof (@fallback_precedence ascii_runtime W "Here you go!"
                "sports news please")
    as (Hcategory & _ & _ & _ & Hsports & Hfallback & _).
  split_and!.
  - apply Hsports. reflexivity.
  - apply (Hfallback initial_state "Here you go!"); reflexivity.
  - destruct Hcategory as (category & Hfirst & _).
    + exists "sports". split; [|reflexivity].
      apply list_elem_of_In. simpl. tauto.
    + by exists category.
Defined.

(** The model replies with the bare number 42 to [sports news please]: the
    reply decodes, so the classifier's answer is the number, not the
    fallback's news_category answer, and the turn ends in the error text.
    And a reply that does not decode is echoed without the white space
    around it, not as it came. *)
Lemma fallback_skipped_and_echo_stripped :
  let number := constant_world "42" (Ok PyNone) None in
  let padded := constant_world "  I can chat.  " (Ok PyNone) None in
  (@process_user_input ascii_runtime number "sports news please"
     initial_state).1 = Ok (PyInt 42) ∧
  (@handle_text_input ascii_runtime number "sports news please" "female"
     initial_state).1 =
    Ok (PyStr "I'm sorry, I encountered an error processing your request.",
        None) ∧
  (∃ answer,
     (@process_user_input ascii_runtime padded "tell me a joke"
        initial_state).1 = Ok (PyDict answer) ∧
     dict_get answer "intent" = Some (PyStr "general_conversation") ∧
     dict_get answer "response" = Some (PyStr "I can chat.") ∧
     dict_get answer "response" ≠ Some (PyStr "  I can chat.  ")).
Proof.
  split_and!; [by vm_compute..|].
  eexists. split_and!; by vm_compute.
Qed.

(** ** The audio registry *)

Lemma serve_audio_missing (audio_id : string)
    (audio_storage : gmap string bytes) :
  audio_storage !! audio_id = None →
  serve_audio audio_id audio_storage =
  (Raise (HTTPException 500 "Error serving audio"), audio_storage).
Proof. intros Hnone. unfold serve_audio, serve_audio_body. by rewrite Hnone. Qed.

Lemma serve_audio_present (audio_id : string) (audio_data : bytes)
    (audio_storage : gmap string bytes) :
  audio_storage !! audio_id = Some audio_data →
  serve_audio audio_id audio_storage =
  (Ok audio_data, delete audio_id audio_storage).
Proof. intros Hsome. unfold serve_audio, serve_audio_body. by rewrite Hsome. Qed.

(** Claim C9.  A blob registered under a key is served by the first
    retrieval, which deletes the entry, and is never served again.  Every
    later retrieval of the key finds no entry; the block then raises the
    404 [Audio not found], which the handler's own [except Exception]
    replaces by the 500 [Error serving audio]; the registry stays as it
    is, so this repeats for any number of retrievals. *)
Theorem audio_served_once (audio_storage : gmap string bytes)
    (K : string) (blob : bytes) (later : nat) :
  let registered := store_audio K blob audio_storage in
  let after_first := (serve_audio K registered).2 in
  let after_later := Nat.iter later (fun s => (serve_audio K s).2) after_first in
  (serve_audio K registered).1 = Ok blob ∧
  after_first !! K = None ∧
  after_later = after_first ∧
  serve_audio_body K after_later =
    (Raise (HTTPException 404 "Audio not found"), after_later) ∧
  serve_audio K after_later =
    (Raise (HTTPException 500 "Error serving audio"), after_later).
Proof.
  intros registered after_first after_later.
  assert (Hfirst : serve_audio K registered = (Ok blob, delete K registered)).
  { apply serve_audio_present. unfold registered, store_audio.
    apply lookup_insert_eq. }
  assert (Hgone : after_first !! K = None).
  { unfold after_first. rewrite Hfirst. apply lookup_delete_eq. }
  assert (Hsame : after_later = after_first).
  { unfold after_later. induction later as [|n IH]; [done|].
    simpl. rewrite IH. by rewrite (serve_audio_missing _ _ Hgone). }
  rewrite Hsame. split_and!; try done.
  - by rewrite Hfirst.
  - unfold serve_audio_body. by rewrite Hgone.
  - by apply serve_audio_missing.
Qed.

(** ** The classifier's history *)

Lemma last_n_suffix {A} (n : nat) (l : list A) : last_n n l `suffix_of` l.
Proof. exists (take (length l - n) l). unfold last_n. by rewrite take_drop. Qed.

Lemma last_n_length {A} (n : nat) (l : list A) :
  length (last_n n l) = (length l `min` n)%nat.
Proof. unfold last_n. rewrite length_drop. lia. Qed.

Lemma last_n_snoc {A} (n : nat) (l : list A) (x : A) :
  last_n (S n) (l ++ [x]) = (last_n n l ++ [x])%list.
Proof.
  unfold last_n. rewrite length_app. simpl.
  replace (length l + 1 - S n)%nat with (length l - n)%nat by lia.
  rewrite drop_app_le; [done | lia].
Qed.

Section History.
Context `{R : Runtime} `{W : World}.

Lemma request_messages_windowed (history : list message) (user_text : string) :
  windowed_request history user_text
    (request_messages (history ++ [user_message user_text])).
Proof.
  exists (last_n 5 (history ++ [user_message user_text])). split_and!.
  - done.
  - apply last_n_suffix.
  - rewrite last_n_length, length_app. simpl. lia.
  - rewrite last_n_snoc. apply last_snoc.
Qed.

Lemma after_classification_history (user_text : string) (st : state) :
  ∃ reply,
    conversation_history (after_classification user_text st) =
      (conversation_history st ++ user_message user_text :: reply)%list ∧
    (length reply ≤ 1)%nat.
Proof.
  unfold after_classification. simpl.
  destruct (openai_chat _ _) as [[c|]|e].
  - exists [{| role := "assistant"; content := str_strip c |}].
    split; [by rewrite <- app_assoc | simpl; lia].
  - exists []. split; [done | simpl; lia].
  - exists []. split; [done | simpl; lia].
Qed.

(** Claim C5, as the code has it.  Over any run of classification calls
    the stored history only grows: the old history is a prefix of the new
    one and every call adds at least the user's message.  Each call sends
    exactly one request, made of the system prompt followed by the last 5
    entries of the history taken after the new user message was appended:
    that message, as the last one, and at most the 4 entries stored before
    it; nothing that lies before those is sent. *)
Theorem history_window (texts : list string) (st : state) :
  ∃ st' requests,
    classify_each texts st = (Ok tt, st') ∧
    current_session st' = current_session st ∧
    conversation_history st `prefix_of` conversation_history st' ∧
    (length (conversation_history st) + length texts
       ≤ length (conversation_history st'))%nat ∧
    trace st' = (trace st ++ (ChatCompletion <$> requests))%list ∧
    Forall2
      (fun user_text messages =>
         ∃ history,
           conversation_history st `prefix_of` history ∧
           (history ++ [user_message user_text])%list
             `prefix_of` conversation_history st' ∧
           windowed_request history user_text messages)
      texts requests.
Proof.
  revert st. induction texts as [|user_text rest IH]; intros st.
  - exists st, []. simpl. split_and!; try done.
    + lia.
    + by rewrite app_nil_r.
  - destruct (process_user_input_run user_text st) as [ai_response Hrun].
    destruct (after_classification_history user_text st) as (reply & Hh & _).
    set (st1 := after_classification user_text st) in *.
    destruct (IH st1) as (st' & requests & Hrest & Hs & Hp & Hl & Ht & Hall).
    exists st',
      (request_messages (conversation_history st ++ [user_message user_text])
         :: requests).
    assert (Hp1 : conversation_history st `prefix_of` conversation_history st1).
    { rewrite Hh. by apply prefix_app_r. }
    split_and!.
    + simpl. unfold bind. by rewrite Hrun.
    + by rewrite Hs.
    + by etrans.
    + rewrite Hh, length_app in Hl. simpl in *. lia.
    + rewrite Ht. simpl. by rewrite <- app_assoc.
    + constructor.
      * exists (conversation_history st). split_and!; [done | |].
        -- etrans; [|exact Hp]. rewrite Hh.
           rewrite (cons_middle _ _ reply), app_assoc. by apply prefix_app_r.
        -- apply request_messages_windowed.
      * eapply Forall2_impl; [exact Hall|].
        intros t msgs (history & Hpre & Hpost & Hw).
        exists history. split_and!; [by etrans | done | done].
Qed.
End History.

(** Five messages are stored and a sixth text arrives.  The oldest stored
    message is one of the five most recent stored ones, yet the request
    carries only the four after it and the new text. *)
Lemma request_window_counts_new_text :
  let W := constant_world "Here you go!" (Ok PyNone) None in
  let st :=
    {| conversation_history := user_message <$> ["h1"; "h2"; "h3"; "h4"; "h5"];
       current_session := ∅;
       trace := [] |} in
  let request :=
    {| role := "system"; content := system_prompt |}
      :: (user_message <$> ["h2"; "h3"; "h4"; "h5"; "now"]) in
  user_message "h1" ∈ last_n 5 (conversation_history st) ∧
  trace (@process_user_input ascii_runtime W "now" st).2
    = [ChatCompletion request] ∧
  user_message "h1" ∉ request.
Proof.
  split_and!.
  - apply list_elem_of_In. left. reflexivity.
  - reflexivity.
  - intros Hin.
    repeat (apply elem_of_cons in Hin as [Hin|Hin]; [discriminate|]).
    by apply elem_of_nil in Hin.
Qed.

(** ** Voice input that was not understood *)

Section Unheard.
Context `{R : Runtime} `{W : World}.

(** Claim C8.  When transcription gives no transcript or an empty one,
    [handle_voice_input] returns the fixed clarification text; the only
    provider calls are the transcription and one synthesis of that text, so
    the language model is not called and the history is untouched; the audio
    returned is what the synthesizer produced, and none when it failed. *)
Theorem unheard_audio_is_not_classified (audio_data : bytes)
    (voice_type : string) (st : state) :
  (transcribe_audio audio_data st).1 = Ok None ∨
  (transcribe_audio audio_data st).1 = Ok (Some "") →
  let clarification :=
    PyStr "I'm sorry, I couldn't understand what you said. Could you please try again?" in
  let model := selected_voice voice_type in
  ∃ audio_response st',
    handle_voice_input audio_data voice_type st =
      (Ok (clarification, audio_response), st') ∧
    conversation_history st' = conversation_history st ∧
    current_session st' = current_session st ∧
    trace st' =
      (trace st ++ [Transcribe audio_data; Speak model clarification])%list ∧
    audio_response =
      match deepgram_speak (trace st ++ [Transcribe audio_data]) model
              clarification with
      | Ok (Some audio) => Some audio
      | _ => None
      end.
Proof.
  intros Hheard clarification model.
  rewrite transcribe_audio_run in Hheard. simpl in Hheard.
  eexists _, _. split.
  - unfold handle_voice_input, handle_voice_input_body, try_except, bind.
    rewrite transcribe_audio_run.
    destruct Hheard as [[= ->]|[= ->]];
      rewrite synthesize_speech_run; reflexivity.
  - simpl. rewrite <- app_assoc. unfold speech_outcome. simpl.
    split_and!; try done.
Qed.
End Unheard.

(** The transcriber hears nothing in an empty recording. *)
Lemma unheard_audio_witness :
  ∃ audio_response st',
    @handle_voice_input ascii_runtime
      (constant_world "unused" (Ok PyNone) None) [] "male" initial_state =
      (Ok (PyStr "I'm sorry, I couldn't understand what you said. Could you please try again?",
           audio_response), st') ∧
    conversation_history st' = [].
Proof.
  destruct (@unheard_audio_is_not_classified ascii_runtime
              (constant_world "unused" (Ok PyNone) None) [] "male"
              initial_state)
    as (audio_response & st' & Hrun & Hhist & _).
  - left. reflexivity.
  - exists audio_response, st'. split; [exact Hrun | exact Hhist].
Defined.

(** ** The batch over all categories *)

Lemma dict_set_fresh {V} (d : list (string * V)) (k : string) (v : V) :
  dict_get d k = None → dict_set d k v = (d ++ [(k, v)])%list.
Proof.
  induction d as [|[k' v'] d IH]; simpl; [done|].
  destruct (String.eqb k' k); [done|]. intros Hd. by rewrite IH.
Qed.

Lemma dict_get_snoc_ne {V} (d : list (string * V)) (k k' : string) (v : V) :
  k ≠ k' → dict_get (d ++ [(k, v)]) k' = dict_get d k'.
Proof.
  intros Hne. induction d as [|[k0 v0] d IH]; simpl.
  - by apply String.eqb_neq in Hne as ->.
  - by rewrite IH.
Qed.

Section Batch.
Context `{W : World}.

Lemma all_categories_loop_run (categories : list string) (limit : Z)
    (all_news : list (string * list pyval)) (st : state) :
  NoDup categories →
  (∀ c, c ∈ categories → dict_get all_news c = None) →
  all_categories_loop categories limit all_news st =
  (Ok (all_news ++ category_entries categories limit (trace st))%list,
   with_trace st
     (trace st ++ (NewsGet ∘ category_query limit <$> categories))%list).
Proof.
  revert all_news st.
  induction categories as [|c cs IH]; intros all_news st Hnd Hfresh; simpl.
  - unfold ret, with_trace. rewrite !app_nil_r. by destruct st.
  - apply NoDup_cons in Hnd as [Hc Hnd].
    unfold bind at 1, try_except, bind.
    rewrite get_top_headlines_run. unfold ret.
    rewrite IH; [|done|].
    + rewrite dict_set_fresh by (apply Hfresh; left).
      simpl. unfold with_trace. simpl.
      by rewrite <- !app_assoc.
    + intros c' Hc'. rewrite dict_set_fresh by (apply Hfresh; left).
      rewrite dict_get_snoc_ne; [apply Hfresh; by right|].
      intros ->. done.
Qed.

Lemma category_entries_lookup (categories : list string) (limit : Z)
    (calls : list event) (i : nat) (category : string) :
  categories !! i = Some category →
  category_entries categories limit calls !! i =
  Some (category,
        headlines_of
          (newsapi_get
             (calls ++ (NewsGet ∘ category_query limit <$> take i categories))
             (category_query limit category)) limit).
Proof.
  revert calls i.
  induction categories as [|c cs IH]; intros calls i Hi; [done|].
  destruct i as [|i]; simpl in *.
  - injection Hi as ->. by rewrite app_nil_r.
  - rewrite (IH _ _ Hi). by rewrite <- app_assoc.
Qed.

Lemma category_entries_keys (categories : list string) (limit : Z)
    (calls : list event) :
  (category_entries categories limit calls).*1 = categories.
Proof.
  revert calls. induction categories as [|c cs IH]; intros calls; simpl;
    [done | by rewrite IH].
Qed.

(** Claim C7.  [get_all_categories_news] never raises and returns one entry
    for each of the seven categories, in the order of their declaration.
    The entry of a category holds what [get_top_headlines] returns for it at
    that point of the batch, whatever happened to the other categories, and
    is the empty list when the provider call for that category fails. *)
Theorem all_categories_isolated (limit_per_category : Z) (st : state) :
  ∃ all_news st',
    get_all_categories_news limit_per_category st = (Ok all_news, st') ∧
    all_news.*1 = NEWS_CATEGORIES ∧
    ∀ (i : nat) (category : string),
      NEWS_CATEGORIES !! i = Some category →
      let earlier :=
        (trace st ++ (NewsGet ∘ category_query limit_per_category
                        <$> take i NEWS_CATEGORIES))%list in
      ∃ news,
        all_news !! i = Some (category, news) ∧
        (get_top_headlines (PyStr category) "us" limit_per_category
           (with_trace st earlier)).1 = Ok news ∧
        (∀ e,
           newsapi_get earlier (category_query limit_per_category category)
             = Raise e →
           news = []).
Proof.
  eexists _, _. split; [|split].
  - unfold get_all_categories_news. apply all_categories_loop_run.
    + apply (bool_decide_unpack (NoDup NEWS_CATEGORIES)). by vm_compute.
    + done.
  - apply category_entries_keys.
  - intros i category Hi earlier. eexists. split; [|split].
    + rewrite app_nil_l. by apply category_entries_lookup.
    + by rewrite get_top_headlines_run.
    + fold earlier. unfold category_query. intros e ->. done.
Qed.
End Batch.

(** ** Normalization of provider articles *)

Lemma format_article_Ok (i : Z) (article formatted : pyval) :
  format_article i article = Ok formatted →
  ∃ raw, article = PyDict raw ∧ formatted = normalized_article i raw.
Proof.
  destruct article as [| | | |l|raw]; try done.
  unfold format_article, normalized_article, source_name, field_or_empty.
  simpl. intros Hf. exists raw. split; [done|].
  destruct (dict_get raw "source") as [[| | | |l|source]|]; simpl in Hf;
    try done; by injection Hf as <-.
Qed.

Lemma format_articles_Ok (items : list pyval) (i : Z)
    (formatted_articles out : list pyval) :
  format_articles i items formatted_articles = Ok out →
  ∃ new,
    out = (formatted_articles ++ new)%list ∧
    length new = length items ∧
    ∀ (k : nat) (article : pyval),
      new !! k = Some article →
      ∃ raw,
        items !! k = Some (PyDict raw) ∧
        article = normalized_article (i + Z.of_nat k) raw.
Proof.
  revert i formatted_articles.
  induction items as [|item rest IH]; intros i acc; simpl.
  - intros [= <-]. exists []. rewrite app_nil_r. split_and!; done.
  - destruct (format_article i item) as [formatted|e] eqn:Hitem; [|done].
    simpl. intros (new & -> & Hlen & Hnew)%IH.
    apply format_article_Ok in Hitem as (raw & -> & ->).
    exists (normalized_article i raw :: new). split_and!.
    + by rewrite <- app_assoc.
    + simpl. by rewrite Hlen.
    + intros [|k] article; simpl.
      * intros [= <-]. exists raw. split; [done|]. f_equal. lia.
      * intros (raw' & Hk & ->)%Hnew. exists raw'. split; [done|].
        f_equal. lia.
Qed.

Lemma slice_to_lookup {A} (l : list A) (n : Z) (k : nat) (x : A) :
  slice_to l n !! k = Some x → l !! k = Some x.
Proof.
  unfold slice_to. destruct (0 <=? n); intros Hk;
    by apply lookup_take_Some in Hk as [Hk _].
Qed.

Lemma slice_to_length {A} (l : list A) (n : Z) :
  0 <= n → (length (slice_to l n) ≤ Z.to_nat n)%nat.
Proof.
  intros Hn. unfold slice_to.
  destruct (0 <=? n) eqn:E; [|lia]. rewrite length_take. lia.
Qed.

Lemma headlines_of_normalized (answer : result pyval) (limit : Z) :
  normalized_batch limit answer (headlines_of answer limit).
Proof.
  assert (Hnil : normalized_batch limit answer []).
  { split; [simpl; lia | done]. }
  unfold headlines_of.
  destruct answer as [data|e]; [|done].
  destruct (articles_of_response data limit) as [out|e] eqn:Hout; [|done].
  unfold articles_of_response in Hout.
  destruct data as [| | | |l|data]; try done. simpl in Hout.
  destruct (dict_get data "articles") as [articles|] eqn:Harticles.
  - destruct articles as [| | |s|raw_articles|d]; try done; simpl in Hout.
    + (* a string: a non-empty one fails at its first character *)
      destruct (slice_to (list_ascii_of_string s) limit) as [|c cs];
        simpl in Hout; [by injection Hout as <- | done].
    + apply format_articles_Ok in Hout as (new & -> & Hlen & Hnew).
      unfold normalized_batch, provider_articles. rewrite Harticles.
      simpl. split_and!.
      * intros Hlimit. rewrite Hlen. by apply slice_to_length.
      * intros k article (raw & Hk & ->)%Hnew. exists raw.
        split; [by eapply slice_to_lookup|].
        f_equal. lia.
  - simpl in Hout. unfold slice_to in Hout.
    destruct (0 <=? limit); simpl in Hout; rewrite take_nil in Hout;
      by injection Hout as <-.
Qed.

Lemma format_article_normalizable (i : Z) (article : pyval) :
  (∃ formatted, format_article i article = Ok formatted) ↔
  normalizable article.
Proof.
  split.
  - intros [formatted Hf]. destruct article as [| | | |l|raw]; try done.
    exists raw. split; [done|].
    unfold format_article in Hf. simpl in Hf.
    destruct (dict_get raw "source") as [[| | | |l|source]|]; simpl in Hf;
      try done; eauto.
  - intros (raw & -> & Hsource). unfold format_article. simpl.
    destruct Hsource as [->|[source ->]]; simpl; eauto.
Qed.

Lemma format_articles_normalizable (items : list pyval) (i : Z)
    (formatted_articles : list pyval) :
  (∃ out, format_articles i items formatted_articles = Ok out) ↔
  Forall normalizable items.
Proof.
  revert i formatted_articles.
  induction items as [|item rest IH]; intros i acc; simpl.
  - split; [done | eauto].
  - rewrite Forall_cons, <- (format_article_normalizable i item).
    destruct (format_article i item) as [formatted|e]; simpl.
    + rewrite <- (IH (i + 1) (acc ++ [formatted])%list). split; [eauto|].
      by intros [_ Hrest].
    + split; [by intros [out Hout] | by intros [[formatted Hf] _]].
Qed.

Lemma slice_to_nil {A} (n : Z) : slice_to (@nil A) n = [].
Proof. unfold slice_to. destruct (0 <=? n); by rewrite take_nil. Qed.

Lemma headlines_of_exact (answer : result pyval) (limit : Z) :
  exact_batch limit answer (headlines_of answer limit).
Proof.
  destruct (headlines_of_normalized answer limit) as (Hmax & Hnorm).
  split; [done|]. split; [|split; [|done]].
  - (* every wanted article can be normalized: none is lost *)
    unfold headlines_of, provider_articles, articles_of_response.
    assert (Hnone : Forall normalizable (slice_to [] limit) →
                    length (@nil pyval) = length (slice_to (@nil pyval) limit)).
    { intros _. by rewrite slice_to_nil. }
    destruct answer as [data|e]; [|done].
    destruct data as [| | | |l|data]; try done.
    cbn [py_get rbind].
    destruct (dict_get data "articles") as [articles|];
      [|by cbn [py_slice_to py_iter rbind]; rewrite !slice_to_nil].
    destruct articles as [| | |s|raw_articles|d]; try done.
    + intros _. rewrite slice_to_nil. cbn [py_slice_to py_iter rbind].
      rewrite list_ascii_of_string_of_list_ascii.
      by destruct (slice_to (list_ascii_of_string s) limit) as [|c cs].
    + cbn [py_slice_to py_iter rbind]. intros Hall.
      apply (format_articles_normalizable _ 1 []) in Hall as [out Hout].
      rewrite Hout.
      by apply format_articles_Ok in Hout as (new & -> & Hlen & _).
  - (* one of them cannot: the whole batch is dropped *)
    unfold headlines_of, provider_articles, articles_of_response.
    destruct answer as [data|e]; [|done].
    destruct data as [| | | |l|data]; try done.
    cbn [py_get rbind].
    destruct (dict_get data "articles") as [articles|];
      [|rewrite slice_to_nil; by intros []].
    destruct articles as [| | |s|raw_articles|d]; try done.
    + rewrite slice_to_nil. by intros [].
    + cbn [py_slice_to py_iter rbind]. intros Hnot.
      destruct (format_articles 1 _ []) as [out|e] eqn:Hout; [|done].
      destruct Hnot. apply (format_articles_normalizable _ 1 []). eauto.
Qed.

Section Normalization.
Context `{W : World}.

(** Claim C4, as the code has it.  [get_top_headlines] and [search_news]
    never raise.  For a limit that is not negative they return at most
    [limit] articles.  When every article of the provider up to the limit
    is a dictionary whose source is a dictionary or absent, they return one
    article for each of them; the article at output position k (from 1) is
    the provider's k-th article with number k and the six keys number,
    title, description, source, url and publishedAt all present; a key the
    provider left out is the empty string, a value the provider sent, a
    null included, is passed on unchanged.  When one article up to the
    limit is no dictionary or has a source that is no dictionary, a null
    source included, nothing at all is returned. *)
Theorem headlines_normalized (category query : pyval) (country : string)
    (limit : Z) (st : state) :
  ∃ headlines found,
    (get_top_headlines category country limit st).1 = Ok headlines ∧
    (search_news query limit st).1 = Ok found ∧
    exact_batch limit
      (newsapi_get (trace st) (TopHeadlines category country limit)) headlines ∧
    exact_batch limit
      (newsapi_get (trace st) (Everything query limit)) found.
Proof.
  eexists _, _. rewrite get_top_headlines_run, search_news_run. simpl.
  split_and!; [done | done | apply headlines_of_exact..].
Qed.
End Normalization.

(** The provider sends a null description, as it does for articles without
    one: the Article keeps the null.  With a negative limit more than
    [limit] articles come back.  And one article with a null source, after
    a complete one, empties the batch. *)
Lemma headlines_null_and_negative_limit :
  let answer :=
    PyDict [("status", PyStr "ok");
            ("articles",
             PyList [PyDict [("title", PyStr "Final score");
                             ("description", PyNone)];
                     full_article "Transfer news" "A short note"])] in
  let W := constant_world "unused" (Ok answer) None in
  let broken :=
    PyDict [("articles",
             PyList [full_article "Transfer news" "A short note";
                     PyDict [("title", PyStr "Final score");
                             ("source", PyNone)]])] in
  (∃ first second,
     (@get_top_headlines W (PyStr "sports") "us" 5 initial_state).1
       = Ok [first; second] ∧
     py_get first "description" (PyStr "") = Ok PyNone) ∧
  (∃ only,
     (@search_news W (PyStr "football") (-1) initial_state).1 = Ok [only] ∧
     ¬ (Z.of_nat (length [only]) <= -1)) ∧
  (@get_top_headlines (constant_world "unused" (Ok broken) None)
     (PyStr "sports") "us" 5 initial_state).1 = Ok [].
Proof.
  split_and!.
  - eexists _, _. split; [by vm_compute | by vm_compute].
  - eexists. split; [by vm_compute | simpl; lia].
  - by vm_compute.
Qed.


(** ** The voice-oriented formatter *)

Lemma str_app_assoc (a b c : string) : (a ++ b) ++ c = a ++ b ++ c.
Proof.
  induction a as [|x a IH]; [done|].
  change (String x ((a ++ b) ++ c) = String x (a ++ b ++ c)). by f_equal.
Qed.

Lemma str_app_nil_r (a : string) : a ++ "" = a.
Proof.
  induction a as [|x a IH]; [done|].
  change (String x (a ++ "") = String x a). by f_equal.
Qed.

Lemma str_concat_cons (x : string) (xs : list string) :
  String.concat "" (x :: xs) = x ++ String.concat "" xs.
Proof. destruct xs; simpl; [by rewrite str_app_nil_r | done]. Qed.

Section Formatter.
Context `{R : Runtime}.

Lemma speech_loop_cons (raw : list (string * pyval)) (rest : list pyval)
    (i : Z) (speech_text : string) :
  speech_loop i (PyDict raw :: rest) speech_text =
  let title := field_or_empty raw "title" in
  let description := field_or_empty raw "description" in
  let speech_text :=
    speech_text ++ "Headline " ++ str_of_int i ++ ": " ++ py_format title
    ++ ". " in
  let? speech_text :=
    if py_truthy description && negb (py_eq description title) then
      match description with
      | PyStr d =>
          let desc_words := take 25 (str_split d) in
          let summary := str_join " " desc_words in
          let summary :=
            if Nat.eqb (length desc_words) 25 then summary ++ "..."
            else summary in
          Ok (speech_text ++ summary ++ " ")
      | _ => Raise AttributeError
      end
    else Ok speech_text in
  speech_loop (i + 1) rest (speech_text ++ nl ++ nl).
Proof. reflexivity. Qed.

Lemma speech_loop_entries (articles : list pyval) (i : nat)
    (speech_text : string) :
  Forall is_article articles →
  ∃ entries,
    speech_loop (Z.of_nat i + 1) articles speech_text =
      Ok (speech_text ++ String.concat "" entries) ∧
    length entries = length articles ∧
    ∀ (k : nat) raw,
      articles !! k = Some (PyDict raw) →
      ∃ summary,
        entries !! k =
          Some (headline_entry (i + k) (field_or_empty raw "title") summary) ∧
        spoken_summary (field_or_empty raw "title")
          (field_or_empty raw "description") summary.
Proof.
  revert i speech_text.
  induction articles as [|article rest IH]; intros i speech_text Hall.
  - exists []. simpl. rewrite str_app_nil_r. split_and!; done.
  - apply Forall_cons in Hall as [(raw & -> & Hdesc) Hall].
    assert (∃ summary,
      spoken_summary (field_or_empty raw "title")
        (field_or_empty raw "description") summary ∧
      ∀ text,
        speech_loop (Z.of_nat i + 1) (PyDict raw :: rest) text =
        speech_loop (Z.of_nat (S i) + 1) rest
          (text ++ headline_entry i (field_or_empty raw "title") summary))
      as (summary & Hsummary & Hstep).
    { replace (Z.of_nat (S i) + 1) with (Z.of_nat i + 1 + 1) by lia.
      assert (Hd : field_or_empty raw "description" = PyNone ∨
                   ∃ d, field_or_empty raw "description" = PyStr d).
      { unfold field_or_empty.
        destruct (dict_get raw "description") as [v|]; [by apply Hdesc|].
        right. by exists "". }
      unfold spoken_summary, headline_entry.
      setoid_rewrite speech_loop_cons.
      generalize (field_or_empty raw "title"). intros title.
      destruct Hd as [->|[d ->]].
      - exists "". split; [done|]. intros text. simpl.
        by rewrite !str_app_assoc.
      - unfold py_truthy.
        destruct (String.eqb d "") eqn:Hd;
          [|destruct (py_eq (PyStr d) title) eqn:Heq]; simpl.
        1,2: exists ""; split; [done|]; intros text;
          by rewrite !str_app_assoc.
        set (words := str_split d).
        eexists. split.
        + exists (if Nat.eqb (length (take 25 words)) 25 then "..." else "").
          split; [reflexivity|]. rewrite length_take.
          split; intros Hwords.
          * by replace (25 `min` length words)%nat with 25%nat by lia.
          * by destruct (Nat.eqb_spec (25 `min` length words) 25); [lia|].
        + intros text. f_equal.
          destruct (Nat.eqb _ 25).
          * rewrite !str_app_assoc. reflexivity.
          * rewrite !str_app_assoc. reflexivity. }
    destruct (IH (S i) (speech_text ++ headline_entry i
                          (field_or_empty raw "title") summary) Hall)
      as (entries & Hrun & Hlen & Hentries).
    exists (headline_entry i (field_or_empty raw "title") summary :: entries).
    split_and!.
    + rewrite Hstep, Hrun, str_concat_cons. by rewrite !str_app_assoc.
    + simpl. by rewrite Hlen.
    + intros [|k] raw'; simpl.
      * intros [= <-]. exists summary. by rewrite Nat.add_0_r.
      * intros (summary' & Hk & Hs)%Hentries. exists summary'.
        by replace (i + S k)%nat with (S i + k)%nat by lia.
Qed.

(** Claim C3, as the code has it.  For a batch of Articles and a label,
    [format_news_for_speech] returns, for no article at all, one apology
    sentence naming the label and no header; otherwise a header line naming
    the label (it does not give the number of articles), then for each
    article [Headline k: title. ], followed, when a non-empty description
    differs from the title, by the first 25 words of the description, an
    ellipsis when the description has more than 25 words and none when it
    has fewer, and a space, followed by a blank line. *)
Theorem voice_format (articles : list pyval) (label : pyval) :
  Forall is_article articles →
  match articles with
  | [] =>
      format_news_for_speech articles label =
        Ok ("Sorry, I couldn't fetch any news for " ++ py_format label
            ++ " at the moment.")
  | _ :: _ =>
      ∃ entries,
        format_news_for_speech articles label =
          Ok ("Here are the top " ++ py_format label ++ " news headlines:"
              ++ nl ++ nl ++ String.concat "" entries) ∧
        length entries = length articles ∧
        ∀ (k : nat) raw,
          articles !! k = Some (PyDict raw) →
          ∃ summary,
            entries !! k =
              Some (headline_entry k (field_or_empty raw "title") summary) ∧
            spoken_summary (field_or_empty raw "title")
              (field_or_empty raw "description") summary
  end.
Proof.
  intros Hall. destruct articles as [|article rest]; [done|].
  destruct (speech_loop_entries (article :: rest) 0
              ("Here are the top " ++ py_format label ++ " news headlines:"
               ++ nl ++ nl) Hall) as (entries & Hrun & Hlen & Hentries).
  exists entries. split_and!; [|done|done].
  unfold format_news_for_speech. change 1 with (Z.of_nat 0 + 1).
  rewrite Hrun. by rewrite !str_app_assoc.
Qed.
End Formatter.

(** Two Articles about sports, read with the ASCII runtime. *)
Lemma voice_format_witness :
  ∃ entries,
    @format_news_for_speech ascii_runtime
      [full_article "Cup final tonight" "Kick-off is at eight";
       full_article "Transfer window opens" "Transfer window opens"]
      (PyStr "sports") =
      Ok ("Here are the top sports news headlines:" ++ nl ++ nl
          ++ String.concat "" entries) ∧
    length entries = 2%nat.
Proof.
  destruct (@voice_format ascii_runtime
              [full_article "Cup final tonight" "Kick-off is at eight";
               full_article "Transfer window opens" "Transfer window opens"]
              (PyStr "sports")) as (entries & Hrun & Hlen & _).
  - repeat constructor; eexists; (split; [reflexivity|]);
      intros v [= <-]; right; eexists; reflexivity.
  - exists entries. split; [exact Hrun | exact Hlen].
Defined.

(** The header line of a batch of one article does not give the count; and
    a description of exactly 25 words, of which nothing is cut, is read
    with an ellipsis. *)
Lemma voice_format_header_and_ellipsis :
  let header := "Here are the top sports news headlines:" in
  let description := str_join " " (numbered_words 25) in
  (∃ rest,
     @format_news_for_speech ascii_runtime
       [full_article "Cup final tonight" "Kick-off is at eight"]
       (PyStr "sports") = Ok (header ++ nl ++ rest) ∧
     str_contains "1" header = false) ∧
  (take 25 (ascii_str_split description) = ascii_str_split description ∧
   @format_news_for_speech ascii_runtime
     [full_article "Budget vote" description] (PyStr "politics") =
     Ok ("Here are the top politics news headlines:" ++ nl ++ nl
         ++ "Headline 1: Budget vote. " ++ description ++ "... " ++ nl ++ nl)).
Proof.
  split.
  - eexists. split; [by vm_compute | by vm_compute].
  - split; by vm_compute.
Qed.

(** ** The session across a turn *)

Lemma bind_Ok {A B} (m : M A) (k : A -> M B) (st st' : state) (a : A) :
  m st = (Ok a, st') → bind m k st = k a st'.
Proof. unfold bind. by intros ->. Qed.

Lemma bind_Raise {A B} (m : M A) (k : A -> M B) (st st' : state) (e : exn) :
  m st = (Raise e, st') → bind m k st = (Raise e, st').
Proof. unfold bind. by intros ->. Qed.

Section Session.
Context `{R : Runtime} `{W : World}.

Lemma get_all_categories_news_run (limit : Z) (st : state) :
  get_all_categories_news limit st =
  (Ok (category_entries NEWS_CATEGORIES limit (trace st)),
   with_trace st
     (trace st ++ (NewsGet ∘ category_query limit <$> NEWS_CATEGORIES))%list).
Proof.
  unfold get_all_categories_news.
  rewrite all_categories_loop_run; [done| |done].
  apply (bool_decide_unpack (NoDup NEWS_CATEGORIES)). by vm_compute.
Qed.

Lemma format_news_for_speech_articles (articles : list pyval) (label : pyval) :
  Forall is_article articles →
  ∃ text, format_news_for_speech articles label = Ok text.
Proof.
  intros Hall. destruct articles as [|article rest]; [by eexists|].
  destruct (speech_loop_entries (article :: rest) 0
              ("Here are the top " ++ py_format label ++ " news headlines:"
               ++ nl ++ nl) Hall) as (entries & Hrun & _).
  eexists. unfold format_news_for_speech. change 1 with (Z.of_nat 0 + 1).
  exact Hrun.
Qed.

Lemma handle_news_request_session (ai_response : list (string * pyval))
    (st : state) :
  let category := answer_category ai_response in
  (py_eq category (PyStr "general") = false →
   Forall is_article (fetched_headlines (trace st) category)) →
  ∃ response st',
    _handle_news_request (PyDict ai_response) st = (Ok response, st') ∧
    conversation_history st' = conversation_history st ∧
    current_session st' =
      session_after_fetch (current_session st) category
        (fetched_news (trace st) category).
Proof.
  intros category Hart.
  unfold _handle_news_request, bind at 1, lift, py_get. simpl.
  fold (answer_category ai_response). fold category.
  unfold fetched_news.
  destruct (py_eq category (PyStr "general")) eqn:Hgeneral.
  - unfold bind. rewrite get_all_categories_news_run. unfold ret. simpl.
    eexists _, _. split_and!; done.
  - unfold bind. rewrite get_top_headlines_run. simpl.
    fold (fetched_headlines (trace st) category).
    specialize (Hart eq_refl).
    destruct (fetched_headlines (trace st) category) as [|a l] eqn:Hf.
    + simpl. eexists _, _. split_and!; done.
    + destruct (format_news_for_speech_articles (a :: l) category Hart)
        as [text Htext].
      unfold lift. rewrite Htext. simpl.
      eexists _, _. split_and!; done.
Qed.

Lemma handle_news_search_session (ai_response : list (string * pyval))
    (st : state) :
  let search_query := answer_search_query ai_response in
  ∃ result st',
    _handle_news_search (PyDict ai_response) st = (result, st') ∧
    conversation_history st' = conversation_history st ∧
    (py_truthy search_query = false →
       (∃ response, result = Ok response) ∧
       st' = st) ∧
    (py_truthy search_query = true →
     Forall is_article (found_articles (trace st) search_query) →
       (∃ response, result = Ok response) ∧
       current_session st' =
         session_after_search (current_session st) search_query
           (found_articles (trace st) search_query)).
Proof.
  intros search_query.
  unfold _handle_news_search, bind at 1, lift, py_get. simpl.
  fold (field_or_empty ai_response "search_query").
  fold (answer_search_query ai_response). fold search_query.
  destruct (py_truthy search_query) eqn:Hq; simpl.
  - unfold bind. rewrite search_news_run. simpl.
    fold (found_articles (trace st) search_query).
    destruct (found_articles (trace st) search_query) as [|a l] eqn:Hf.
    + simpl. eexists _, _. split_and!; try done. intros _ _. eauto.
    + destruct (format_news_for_speech (a :: l) _) as [text|e] eqn:Htext;
        simpl; eexists _, _; (split_and!; [done|done|done|]).
      * intros _ _. eauto.
      * intros _ Hart.
        destruct (format_news_for_speech_articles (a :: l)
                    (PyStr ("search results for " ++ py_format search_query))
                    Hart) as [text Htext'].
        congruence.
  - unfold ret. eexists _, _. split_and!; try done. intros _. eauto.
Qed.

(** The session after [_handle_intent], branch by branch. *)
Lemma handle_intent_session (ai_response : list (string * pyval))
    (st : state) :
  let action := answer_action ai_response in
  let category := answer_category ai_response in
  let search_query := answer_search_query ai_response in
  let fetch := py_eq action (PyStr "fetch_news") in
  let search := py_eq action (PyStr "search_news") in
  ∃ response st',
    _handle_intent (PyDict ai_response) st = (Ok response, st') ∧
    (fetch = true →
     (py_eq category (PyStr "general") = false →
      Forall is_article (fetched_headlines (trace st) category)) →
       current_session st' =
         session_after_fetch (current_session st) category
           (fetched_news (trace st) category)) ∧
    (fetch = false → search = true → py_truthy search_query = true →
     Forall is_article (found_articles (trace st) search_query) →
       current_session st' =
         session_after_search (current_session st) search_query
           (found_articles (trace st) search_query)) ∧
    (fetch = false → search = true → py_truthy search_query = false →
       st' = st) ∧
    (fetch = false → search = false → st' = st).
Proof.
  intros action category search_query fetch search.
  unfold _handle_intent, bind at 1, lift, py_get. simpl.
  unfold bind at 1. simpl.
  fold (answer_action ai_response). fold action. fold fetch. fold search.
  unfold try_except.
  destruct fetch eqn:Hfetch; [|destruct search eqn:Hsearch].
  - unfold bind.
    destruct (_handle_news_request (PyDict ai_response) st)
      as [[response|e] st1] eqn:Hrun; simpl;
      eexists _, _; (split_and!; [done| |done..]); intros _ Hart;
      destruct (handle_news_request_session ai_response st Hart)
        as (response' & st' & Hrun' & _ & Hsession);
      unfold category; congruence.
  - unfold bind.
    destruct (handle_news_search_session ai_response st)
      as (result & st1 & Hrun & _ & Hempty & Hfound).
    rewrite Hrun.
    destruct result as [response|e]; simpl;
      eexists _, _; (split_and!; [done|done| | |done]).
    + intros _ _ Hq Hart. by apply Hfound.
    + intros _ _ Hq. by apply Hempty.
    + intros _ _ Hq Hart. by apply Hfound.
    + intros _ _ Hq. by apply Hempty.
  - unfold ret. eexists _, _. split_and!; done.
Qed.

(** No service other than the two news branches writes the session. *)
Lemma handle_text_input_session (text_input voice_type : string) (st : state) :
  ∃ ai_response,
    process_user_input text_input st =
      (Ok ai_response, after_classification text_input st) ∧
    current_session (handle_text_input text_input voice_type st).2 =
    current_session
      (_handle_intent ai_response (after_classification text_input st)).2.
Proof.
  destruct (process_user_input_run text_input st) as [ai_response Hrun].
  exists ai_response. split; [done|].
  unfold handle_text_input, handle_text_input_body, try_except.
  unfold bind at 1. rewrite Hrun. unfold bind.
  destruct (_handle_intent ai_response _) as [[final|e] st2]; [|done].
  by rewrite synthesize_speech_run.
Qed.

Lemma handle_voice_input_session (audio_data : bytes) (voice_type : string)
    (st : state) :
  let heard := record_call (Transcribe audio_data) st in
  match (transcribe_audio audio_data st).1 with
  | Ok (Some (String c rest)) =>
      ∃ ai_response,
        process_user_input (String c rest) heard =
          (Ok ai_response, after_classification (String c rest) heard) ∧
        current_session (handle_voice_input audio_data voice_type st).2 =
        current_session
          (_handle_intent ai_response
             (after_classification (String c rest) heard)).2
  | _ =>
      current_session (handle_voice_input audio_data voice_type st).2 =
      current_session st
  end.
Proof.
  intros heard. rewrite transcribe_audio_run. cbn [fst].
  unfold handle_voice_input, handle_voice_input_body, try_except.
  erewrite bind_Ok by apply transcribe_audio_run. fold heard.
  destruct (deepgram_transcribe _ _) as [[[|c rest]|]|e];
    try (erewrite bind_Ok by apply synthesize_speech_run; done).
  destruct (process_user_input_run (String c rest) heard)
    as [ai_response Hrun].
  exists ai_response. split; [done|].
  erewrite bind_Ok by exact Hrun. unfold bind.
  destruct (_handle_intent ai_response _) as [[final|e] st2];
    by rewrite synthesize_speech_run.
Qed.

Lemma handle_intent_session_after (ai_response : pyval) (st : state) :
  speakable_fetch ai_response (trace st) →
  current_session (_handle_intent ai_response st).2 =
  session_after_answer ai_response st.
Proof.
  destruct ai_response as [| | | |l|d]; try done.
  unfold speakable_fetch, session_after_answer.
  destruct (handle_intent_session d st)
    as (response & st' & -> & Hfetch & Hsearch & Hempty & Hother).
  cbn [snd].
  destruct (py_eq (answer_action d) (PyStr "fetch_news")).
  { intros Hart. by apply Hfetch. }
  destruct (py_eq (answer_action d) (PyStr "search_news")).
  - destruct (py_truthy (answer_search_query d)).
    + intros Hart. by apply Hsearch; [..|apply Hart].
    + intros _. by rewrite Hempty.
  - intros _. by rewrite Hother.
Qed.

(** Claim C6, as the code has it.  On a turn of [handle_text_input], and on
    a turn of [handle_voice_input] whose audio gave a transcript, the
    session afterwards is decided by the classifier's answer: after a
    fetch_news branch [last_category], [last_news_data] and [last_action]
    hold the category, whatever was fetched (an empty result too) and
    news_fetch; after a search_news branch with a topic [last_search],
    [last_news_data] and [last_action] hold the topic, what was found and
    news_search; after a search_news branch without a topic, a
    respond_only branch, an unknown action or an answer that is no
    object, the session is as it was.  A voice turn without a transcript
    leaves the session as it was. *)
Theorem session_updated_by_news_branches (text_input voice_type : string)
    (audio_data : bytes) (st : state) :
  (∃ ai_response,
     let classified := after_classification text_input st in
     process_user_input text_input st = (Ok ai_response, classified) ∧
     (speakable_fetch ai_response (trace classified) →
      current_session (handle_text_input text_input voice_type st).2 =
      session_after_answer ai_response classified)) ∧
  (let heard := record_call (Transcribe audio_data) st in
   match (transcribe_audio audio_data st).1 with
   | Ok (Some (String c rest)) =>
       ∃ ai_response,
         let classified := after_classification (String c rest) heard in
         process_user_input (String c rest) heard =
           (Ok ai_response, classified) ∧
         (speakable_fetch ai_response (trace classified) →
          current_session (handle_voice_input audio_data voice_type st).2 =
          session_after_answer ai_response classified)
   | _ =>
       current_session (handle_voice_input audio_data voice_type st).2 =
       current_session st
   end).
Proof.
  split.
  - destruct (handle_text_input_session text_input voice_type st)
      as (ai_response & Hrun & Hsession).
    exists ai_response. split; [done|]. intros Hart.
    rewrite Hsession. by apply handle_intent_session_after.
  - intros heard.
    pose proof (handle_voice_input_session audio_data voice_type st) as Hv.
    fold heard in Hv.
    destruct ((transcribe_audio audio_data st).1) as [[[|c rest]|]|e];
      try done.
    destruct Hv as (ai_response & Hrun & Hsession).
    exists ai_response. split; [done|]. intros Hart.
    rewrite Hsession. by apply handle_intent_session_after.
Qed.
End Session.

(** The model replies with prose to [sports news]; the fallback asks for
    the sports headlines, and the session records the fetch. *)
Lemma session_updated_witness :
  let W :=
    constant_world "Here you go!"
      (Ok (PyDict [("articles",
                    PyList [full_article "Cup final tonight"
                              "Kick-off is at eight"])])) None in
  let after :=
    (@handle_text_input ascii_runtime W "sports news" "female"
       initial_state).2 in
  current_session after !! "last_category" = Some (PyStr "sports") ∧
  current_session after !! "last_action" = Some (PyStr "news_fetch").
Proof.
  intros W after. subst after.
  destruct (@session_updated_by_news_branches ascii_runtime W
              "sports news" "female" [] initial_state)
    as [(ai_response & Hrun & Hsession) _].
  assert (Hai : ai_response =
                PyDict (@_parse_fallback_response ascii_runtime
                          "Here you go!" "sports news")).
  { vm_compute in Hrun. injection Hrun as <-. reflexivity. }
  subst ai_response. rewrite Hsession.
  - split; reflexivity.
  - intros _. repeat constructor. eexists. split; [reflexivity|].
    intros v [= <-]. right. eexists. reflexivity.
Defined.

(** The model asks for a search and names no topic: the turn ends in the
    search_news branch and the session is as it was. *)
Lemma search_without_topic_keeps_session :
  let W := constant_world empty_search_reply (Ok (PyDict [])) None in
  let turn :=
    @handle_text_input ascii_runtime W "find me something" "female"
      initial_state in
  (∃ ai_response,
     (@process_user_input ascii_runtime W "find me something"
        initial_state).1 = Ok (PyDict ai_response) ∧
     dict_get ai_response "action" = Some (PyStr "search_news")) ∧
  turn.1 =
    Ok (PyStr "I need a specific topic to search for. What news would you like me to find?",
        Some [Byte.x52]) ∧
  current_session turn.2 = current_session initial_state ∧
  current_session turn.2 !! "last_action" = None.
Proof.
  split_and!.
  - eexists. split; by vm_compute.
  - by vm_compute.
  - by vm_compute.
  - by vm_compute.
Qed.

(** ** Details of a stored article *)

Section Details.
Context `{R : Runtime}.

(** While the stored news is a list of Articles, or nothing is stored, the
    lookup is within bounds and nothing is raised. *)
Lemma get_detailed_article_of_list (article_number : Z) (st : state)
    (stored : list pyval) :
  current_session st !! "last_news_data" = None ∧ stored = [] ∨
  current_session st !! "last_news_data" = Some (PyList stored) →
  Forall (fun article => ∃ raw, article = PyDict raw) stored →
  ∃ text,
    get_detailed_article article_number st = (Ok text, st) ∧
    (article_number < 1 ∨ Z.of_nat (length stored) < article_number →
       text = "I don't have that article number. Please ask for a valid article number from the recent news.") ∧
    (1 <= article_number <= Z.of_nat (length stored) →
       ∃ raw,
         stored !! Z.to_nat (article_number - 1) = Some (PyDict raw) ∧
         text =
           "Here's more detail about article " ++ str_of_int article_number
           ++ ": "
           ++ py_format (match dict_get raw "title" with
                         | Some v => v
                         | None => PyStr "No title"
                         end)
           ++ ". "
           ++ py_format (match dict_get raw "description" with
                         | Some v => v
                         | None => PyStr "No description available"
                         end)
           ++ " This story is from "
           ++ py_format (match dict_get raw "source" with
                         | Some v => v
                         | None => PyStr "Unknown source"
                         end)
           ++ ".").
Proof.
  intros Hstored Hdicts.
  assert (Hdata :
    match current_session st !! "last_news_data" with
    | Some v => v
    | None => PyList []
    end = PyList stored).
  { by destruct Hstored as [[-> ->]| ->]. }
  unfold get_detailed_article, get_session.
  unfold bind at 1. cbn beta iota. rewrite Hdata.
  unfold bind at 1, lift.
  destruct stored as [|first rest].
  { eexists. cbn. split_and!; [done|done|]. intros Hn. simpl in Hn. lia. }
  cbn [py_truthy negb py_len rbind].
  destruct (Z.ltb_spec article_number 1) as [Hlow|Hlow].
  { eexists. cbn. split_and!; [done|done|]. intros Hn. simpl in *. lia. }
  destruct (Z.ltb_spec (Z.of_nat (length (first :: rest))) article_number)
    as [Hhigh|Hhigh].
  { eexists. cbn. split_and!; [done|done|]. intros Hn. simpl in *. lia. }
  assert (Hn : (Z.to_nat (article_number - 1) < length (first :: rest))%nat)
    by lia.
  apply lookup_lt_is_Some_2 in Hn as [article Harticle].
  destruct (proj1 (Forall_lookup _ _) Hdicts _ _ Harticle) as [raw ->].
  unfold bind, lift, ret, py_getitem.
  cbv zeta.
  destruct (Z.ltb_spec (article_number - 1) 0) as [Hneg|_]; [lia|].
  cbv iota.
  destruct (Z.ltb_spec (article_number - 1) 0) as [Hneg|_]; [lia|].
  rewrite Harticle. cbn [py_get].
  eexists. split_and!; [done|lia|]. intros _. by exists raw.
Qed.

(** Claim C10 fails on a session whose stored news is the batch over all
    categories, which [_handle_news_request] stores for the category
    general: a dictionary by category.  For every number from 1 to the
    number of its entries the bounds test passes and the lookup by position
    raises KeyError. *)
Theorem get_detailed_article_of_briefing (article_number : Z) (st : state)
    (stored : list (string * pyval)) :
  current_session st !! "last_news_data" = Some (PyDict stored) →
  1 <= article_number <= Z.of_nat (length stored) →
  get_detailed_article article_number st = (Raise KeyError, st).
Proof.
  intros Hstored Hn.
  unfold get_detailed_article, get_session.
  unfold bind at 1. cbn beta iota. rewrite Hstored.
  unfold bind at 1, lift.
  destruct stored as [|entry rest]; [simpl in Hn; lia|].
  cbn [py_truthy negb py_len rbind].
  destruct (Z.ltb_spec article_number 1) as [Hlow|_]; [lia|].
  destruct (Z.ltb_spec (Z.of_nat (length (entry :: rest))) article_number)
    as [Hhigh|_]; [lia|].
  reflexivity.
Qed.
End Details.

(** A turn that asks for [any news] stores the batch over the seven
    categories; asking for article 1 afterwards raises. *)
Lemma get_detailed_article_witness :
  let W :=
    constant_world "Here you go!"
      (Ok (PyDict [("articles",
                    PyList [full_article "Cup final tonight"
                              "Kick-off is at eight"])])) None in
  let after :=
    (@handle_text_input ascii_runtime W "any news" "female"
       initial_state).2 in
  (@get_detailed_article ascii_runtime 1 after).1 = Raise KeyError.
Proof.
  intros W after.
  assert (Hstored : ∃ stored,
            current_session after !! "last_news_data" = Some (PyDict stored) ∧
            length stored = 7%nat).
  { eexists. split; by vm_compute. }
  destruct Hstored as (stored & Hstored & Hlen).
  rewrite (@get_detailed_article_of_briefing ascii_runtime 1 after stored);
    [reflexivity | exact Hstored | rewrite Hlen; lia].
Defined.

(** ** Failures at the top level *)

Section TopLevel.
Context `{R : Runtime} `{W : World}.

(** [_handle_intent] reads the answer before its own [try]: an answer that
    is no object raises there, any other is answered. *)
Lemma handle_intent_outcome (ai_response : pyval) (st : state) :
  match ai_response with
  | PyDict _ => ∃ response st', _handle_intent ai_response st = (Ok response, st')
  | _ => _handle_intent ai_response st = (Raise AttributeError, st)
  end.
Proof.
  destruct ai_response as [| | | |l|d]; try done.
  destruct (handle_intent_session d st) as (response & st' & Hrun & _).
  eauto.
Qed.

Lemma handle_text_input_body_outcome (text_input voice_type : string)
    (st : state) :
  ∃ ai_response,
    process_user_input text_input st =
      (Ok ai_response, after_classification text_input st) ∧
    match ai_response with
    | PyDict _ =>
        ∃ result st',
          handle_text_input_body text_input voice_type st = (Ok result, st')
    | _ =>
        handle_text_input_body text_input voice_type st =
          (Raise AttributeError, after_classification text_input st)
    end.
Proof.
  destruct (process_user_input_run text_input st) as [ai_response Hrun].
  exists ai_response. split; [done|].
  unfold handle_text_input_body. erewrite bind_Ok by exact Hrun.
  pose proof (handle_intent_outcome ai_response
                (after_classification text_input st)) as Hintent.
  destruct ai_response as [| | | |l|d];
    try (by erewrite bind_Raise by exact Hintent).
  destruct Hintent as (response & st' & Hintent).
  erewrite bind_Ok by exact Hintent.
  erewrite bind_Ok by apply synthesize_speech_run. unfold ret. eauto.
Qed.

(** What [_handle_intent] returns is a text, unless the turn neither
    fetches nor searches: then it is the drafted response. *)
Lemma handle_intent_response (ai_response response : pyval)
    (st st' : state) :
  _handle_intent ai_response st = (Ok response, st') →
  turn_response ai_response response.
Proof.
  destruct ai_response as [| | | |l|d]; try done.
  unfold turn_response, drafted_response.
  unfold _handle_intent, bind at 1, lift, py_get. simpl.
  unfold bind at 1. simpl.
  fold (answer_action d). unfold try_except.
  destruct (py_eq (answer_action d) (PyStr "fetch_news"));
    [|destruct (py_eq (answer_action d) (PyStr "search_news"))].
  - unfold bind.
    destruct (_handle_news_request (PyDict d) st) as [[text|e] st1];
      unfold ret; intros [= <- _]; eauto.
  - unfold bind.
    destruct (_handle_news_search (PyDict d) st) as [[text|e] st1];
      unfold ret; intros [= <- _]; eauto.
  - unfold ret. by intros [= <- _].
Qed.

Lemma handle_text_input_body_response (text_input voice_type : string)
    (st st' : state) (ai_response response : pyval)
    (audio_response : option bytes) :
  process_user_input text_input st =
    (Ok ai_response, after_classification text_input st) →
  handle_text_input_body text_input voice_type st =
    (Ok (response, audio_response), st') →
  turn_response ai_response response.
Proof.
  intros Hclassified. unfold handle_text_input_body.
  erewrite bind_Ok by exact Hclassified.
  destruct (_handle_intent ai_response (after_classification text_input st))
    as [[final|e] st2] eqn:Hintent.
  - erewrite bind_Ok by exact Hintent.
    erewrite bind_Ok by apply synthesize_speech_run. unfold ret.
    intros [= <- _ _]. by eapply handle_intent_response.
  - by erewrite bind_Raise by exact Hintent.
Qed.

(** Claim C1, as the code has it.  Neither public operation lets an
    exception out: each call returns a pair of a response and audio or none.
    When the [try] block of [handle_voice_input] fails, the response is the
    fixed [I'm experiencing some technical difficulties...] and the audio is
    one synthesis attempt of that text.  When the [try] block of
    [handle_text_input] fails, which happens exactly when the classifier's
    answer is no object, the response is the fixed
    [I'm sorry, I encountered an error processing your request.], the audio
    is none and no synthesis is attempted.  The response is a text in every
    case but one: on a turn that neither fetches nor searches it is the value
    the classifier's answer holds under [response], handed back as it is,
    whatever it is.  A recording in which nothing was heard is answered with
    the fixed request to try again. *)
Theorem public_operations_never_raise (text_input voice_type : string)
    (audio_data : bytes) (st : state) :
  (∃ response audio_response st',
     handle_voice_input audio_data voice_type st =
       (Ok (response, audio_response), st') ∧
     (∀ e failed,
        handle_voice_input_body audio_data voice_type st = (Raise e, failed) →
        response =
          PyStr "I'm experiencing some technical difficulties. Please try again in a moment." ∧
        audio_response = speech_outcome (trace failed) response voice_type ∧
        st' = record_call (Speak (selected_voice voice_type) response) failed) ∧
     match (transcribe_audio audio_data st).1 with
     | Ok (Some (String c rest)) =>
         ∃ ai_response,
           (process_user_input (String c rest)
              (record_call (Transcribe audio_data) st)).1 = Ok ai_response ∧
           turn_response ai_response response
     | _ =>
         response =
           PyStr "I'm sorry, I couldn't understand what you said. Could you please try again?"
     end) ∧
  (∃ response audio_response st',
     handle_text_input text_input voice_type st =
       (Ok (response, audio_response), st') ∧
     (∀ e failed,
        handle_text_input_body text_input voice_type st = (Raise e, failed) →
        response =
          PyStr "I'm sorry, I encountered an error processing your request." ∧
        audio_response = None ∧
        st' = failed ∧
        ∃ ai_response,
          (process_user_input text_input st).1 = Ok ai_response ∧
          ∀ d, ai_response ≠ PyDict d) ∧
     ∃ ai_response,
       (process_user_input text_input st).1 = Ok ai_response ∧
       turn_response ai_response response).
Proof.
  split.
  - rewrite transcribe_audio_run. cbn [fst].
    unfold handle_voice_input, try_except.
    destruct (handle_voice_input_body audio_data voice_type st)
      as [[[response audio_response]|e] st1] eqn:Hrun.
    + eexists _, _, _. split; [done|]. split; [intros e failed [=]|].
      revert Hrun. unfold handle_voice_input_body.
      erewrite bind_Ok by apply transcribe_audio_run.
      destruct (deepgram_transcribe _ _) as [[[|c rest]|]|e];
        try (erewrite bind_Ok by apply synthesize_speech_run; unfold ret;
             by intros [= <- _ _]).
      set (heard := record_call (Transcribe audio_data) st).
      destruct (process_user_input_run (String c rest) heard)
        as [ai_response Hclassified].
      intros Hrun. exists ai_response. rewrite Hclassified. split; [done|].
      by eapply (handle_text_input_body_response (String c rest) voice_type
                   heard st1 ai_response response audio_response).
    + erewrite bind_Ok by apply synthesize_speech_run. unfold ret.
      eexists _, _, _. split; [done|].
      split; [by intros e' failed [= _ <-]|].
      revert Hrun. unfold handle_voice_input_body.
      erewrite bind_Ok by apply transcribe_audio_run.
      destruct (deepgram_transcribe _ _) as [[[|c rest]|]|e0];
        try (by erewrite bind_Ok by apply synthesize_speech_run).
      set (heard := record_call (Transcribe audio_data) st).
      intros Hrun.
      destruct (handle_text_input_body_outcome (String c rest) voice_type
                  heard) as (ai_response & Hclassified & Hbody).
      exists ai_response. rewrite Hclassified. split; [done|].
      destruct ai_response as [| | | |l|d];
        try (unfold turn_response; simpl; by eauto).
      destruct Hbody as (result & st2 & Hbody).
      unfold handle_text_input_body in Hbody. congruence.
  - unfold handle_text_input, try_except.
    destruct (handle_text_input_body_outcome text_input voice_type st)
      as (ai_response & Hclassified & Hbody).
    destruct (handle_text_input_body text_input voice_type st)
      as [[[response audio_response]|e] st1] eqn:Hrun.
    + eexists _, _, _. split; [done|]. split; [intros e failed [=]|].
      exists ai_response. rewrite Hclassified. split; [done|].
      by eapply handle_text_input_body_response.
    + unfold ret. eexists _, _, _. split; [done|].
      assert (Hshape : ∀ d, ai_response ≠ PyDict d).
      { intros d ->. by destruct Hbody as (result & st' & [=]). }
      split.
      * intros e' failed [= _ <-]. split_and!; try done.
        exists ai_response. by rewrite Hclassified.
      * exists ai_response. rewrite Hclassified. split; [done|].
        destruct ai_response as [| | | |l|d];
          try (unfold turn_response; simpl; by eauto).
        by destruct (Hshape d).
Qed.
End TopLevel.

(** The transcriber hears [hello], the model replies with the bare number
    42: the answer is no object, the block of [handle_voice_input] fails and
    the caller gets the fixed text and the synthesized audio. *)
Lemma public_operations_witness :
  let W := constant_world "42" (Ok (PyDict [])) (Some "hello") in
  (@handle_voice_input ascii_runtime W [] "female" initial_state).1 =
  Ok (PyStr "I'm experiencing some technical difficulties. Please try again in a moment.",
      Some [Byte.x52]).
Proof.
  intros W.
  destruct (@public_operations_never_raise ascii_runtime W "hello" "female"
              [] initial_state)
    as [(response & audio_response & st' & Hrun & Hfailed & _) _].
  rewrite Hrun.
  destruct (Hfailed AttributeError
              ((@handle_voice_input_body ascii_runtime W [] "female"
                  initial_state).2))
    as (-> & -> & _); [by vm_compute | by vm_compute].
Defined.

(** The same failure on the text path: the model replies with the bare
    number 42 to [hello].  The caller gets another fixed text than the one
    of the voice path, no audio, and the synthesizer is not called.  And a
    reply whose [response] is null: the turn hands back null and no audio,
    so the caller has no text at all. *)
Lemma handle_text_input_failure_text :
  let W := constant_world "42" (Ok (PyDict [])) None in
  let turn := @handle_text_input ascii_runtime W "hello" "female" initial_state in
  let silent := constant_world null_response_reply (Ok (PyDict [])) None in
  (@handle_text_input_body ascii_runtime W "hello" "female" initial_state).1
    = Raise AttributeError ∧
  turn.1 =
    Ok (PyStr "I'm sorry, I encountered an error processing your request.",
        None) ∧
  (∀ audio_response,
     turn.1 ≠
       Ok (PyStr "I'm experiencing some technical difficulties. Please try again in a moment.",
           audio_response)) ∧
  Forall (fun call => ∀ model text, call ≠ Speak model text) (trace turn.2) ∧
  (@handle_text_input null_response_runtime silent "hello" "female"
     initial_state).1 = Ok (PyNone, None) ∧
  (∀ text audio_response,
     (@handle_text_input null_response_runtime silent "hello" "female"
        initial_state).1 ≠ Ok (PyStr text, audio_response)).
Proof.
  split_and!.
  - by vm_compute.
  - by vm_compute.
  - intros audio_response. by vm_compute.
  - vm_compute. repeat constructor; done.
  - by vm_compute.
  - intros text audio_response. by vm_compute.
Qed.

(** * Further properties of the services *)

(** ** Resetting the session *)

Section Reset.
Context `{R : Runtime} `{W : World}.
Variable json_dumps : gmap string pyval -> string.

(** After [clear_session] the history and the session are empty and no
    provider was called; clearing again changes nothing; and on the cleared
    state every article number is answered with the fixed message, the
    voice preference reads as the default female, the conversation summary
    reports no history, and a follow-up is answered with the fixed question
    without calling the language model. *)
Theorem clear_session_resets (st : state) (article_number : Z)
    (user_input : string) :
  let cleared := (clear_session st).2 in
  clear_session st = (Ok tt, cleared) ∧
  conversation_history cleared = [] ∧
  current_session cleared = ∅ ∧
  trace cleared = trace st ∧
  clear_session cleared = (Ok tt, cleared) ∧
  get_detailed_article article_number cleared =
    (Ok "I don't have that article number. Please ask for a valid article number from the recent news.",
     cleared) ∧
  get_voice_preference cleared = (Ok (PyStr "female"), cleared) ∧
  get_conversation_summary cleared =
    (Ok "No conversation history available.", cleared) ∧
  handle_followup json_dumps user_input cleared =
    (Ok "What would you like to know about? I can provide news updates from various categories.",
     cleared).
Proof.
  intros cleared. split_and!; done.
Qed.
End Reset.

(** ** The voice preference *)

(** [set_voice_preference] followed by [get_voice_preference] reads back
    male or female; any other value is ignored and the state stays as it
    was; in no case is another key of the session, the history or the
    record of provider calls changed. *)
Theorem voice_preference_round_trip (voice_type : string) (st : state) :
  let st' := (set_voice_preference voice_type st).2 in
  (voice_type = "male" ∨ voice_type = "female" →
     (get_voice_preference st').1 = Ok (PyStr voice_type)) ∧
  (voice_type ≠ "male" → voice_type ≠ "female" →
     st' = st ∧ get_voice_preference st' = get_voice_preference st) ∧
  (∀ key, key ≠ "voice_preference" →
     current_session st' !! key = current_session st !! key) ∧
  conversation_history st' = conversation_history st ∧
  trace st' = trace st.
Proof.
  intros st'. subst st'. unfold set_voice_preference, get_voice_preference.
  simpl. rewrite orb_false_r.
  destruct (String.eqb_spec voice_type "male") as [->|Hm];
    [|destruct (String.eqb_spec voice_type "female") as [->|Hf]]; simpl.
  - split_and!; try done.
    + intros _. by rewrite lookup_insert_eq.
    + intros key Hkey. by rewrite lookup_insert_ne.
  - split_and!; try done.
    + intros _. by rewrite lookup_insert_eq.
    + intros key Hkey. by rewrite lookup_insert_ne.
  - split_and!; try done. by intros [?|?].
Qed.

Lemma voice_preference_witness :
  (get_voice_preference (set_voice_preference "male" initial_state).2).1
    = Ok (PyStr "male") ∧
  (set_voice_preference "robot" initial_state).2 = initial_state.
Proof.
  pose proof (voice_preference_round_trip "male" initial_state) as (Hset & _).
  pose proof (voice_preference_round_trip "robot" initial_state)
    as (_ & Hignored & _).
  split.
  - apply Hset. left. reflexivity.
  - apply Hignored; discriminate.
Defined.

(** ** Speech synthesis *)

Section Synthesis.
Context `{R : Runtime} `{W : World}.

(** [synthesize_speech] never raises and makes exactly one provider call,
    for the male model when the voice type is male and for the female model
    for every other voice type.  It returns no audio when the provider
    fails or sends no stream, and also when the text is neither a string
    nor a list, although the provider was called; for a string it returns
    the provider's audio unchanged. *)
Theorem synthesize_speech_voice_and_failure (text : pyval)
    (voice_type : string) (st : state) :
  let model :=
    if String.eqb voice_type "male" then "aura-orion-en"
    else "aura-asteria-en" in
  let answer := deepgram_speak (trace st) model text in
  ∃ audio_response,
    synthesize_speech text voice_type st =
      (Ok audio_response, record_call (Speak model text) st) ∧
    ((∀ audio, answer ≠ Ok (Some audio)) → audio_response = None) ∧
    (match text with PyStr _ | PyList _ => False | _ => True end →
       audio_response = None) ∧
    (∀ s audio, text = PyStr s → answer = Ok (Some audio) →
       audio_response = Some audio).
Proof.
  intros model answer.
  assert (Hmodel : selected_voice voice_type = model).
  { unfold selected_voice, model, voices. cbn [dict_get].
    destruct (String.eqb_spec "female" voice_type) as [<-|Hf]; [done|].
    rewrite (String.eqb_sym voice_type "male").
    by destruct (String.eqb "male" voice_type). }
  exists (speech_outcome (trace st) text voice_type).
  rewrite synthesize_speech_run, Hmodel. split; [done|].
  unfold speech_outcome. rewrite Hmodel. fold answer.
  split_and!.
  - intros Hfail. destruct answer as [[audio|]|e]; try done.
    by destruct (Hfail audio).
  - intros Htext. destruct answer as [[audio|]|e]; try done.
    by destruct text.
  - by intros s audio -> ->.
Qed.
End Synthesis.

(** ** The audio registry: other entries *)

(** Serving one key, found or not, leaves every other entry of the registry
    as it was, and a blob stored under a key is what the next retrieval of
    that key returns, whatever was stored or served under other keys in
    between and whatever the key held before. *)
Theorem audio_registry_frame (audio_storage : gmap string bytes)
    (K K' : string) (blob blob' : bytes) :
  K ≠ K' →
  (serve_audio K audio_storage).2 !! K' = audio_storage !! K' ∧
  (serve_audio K (store_audio K' blob' (store_audio K blob audio_storage))).1
    = Ok blob ∧
  (serve_audio K
     (serve_audio K' (store_audio K blob audio_storage)).2).1 = Ok blob ∧
  (serve_audio K (store_audio K blob (store_audio K blob' audio_storage))).1
    = Ok blob.
Proof.
  intros Hne. split_and!.
  - unfold serve_audio, serve_audio_body.
    destruct (audio_storage !! K); simpl; [by rewrite lookup_delete_ne|done].
  - erewrite serve_audio_present; [done|]. unfold store_audio.
    rewrite lookup_insert_ne by done. apply lookup_insert_eq.
  - erewrite serve_audio_present; [done|].
    unfold serve_audio, serve_audio_body, store_audio.
    rewrite lookup_insert_ne by done.
    destruct (audio_storage !! K'); simpl.
    + rewrite lookup_delete_ne by done. apply lookup_insert_eq.
    + apply lookup_insert_eq.
  - erewrite serve_audio_present; [done|]. apply lookup_insert_eq.
Qed.

Lemma audio_registry_frame_witness :
  (serve_audio "a" (store_audio "b" [Byte.x01]
                      (store_audio "a" [Byte.x02] ∅))).1 = Ok [Byte.x02].
Proof.
  pose proof (audio_registry_frame ∅ "a" "b" [Byte.x02] [Byte.x01])
    as (_ & Hserve & _); [discriminate|exact Hserve].
Defined.

(** ** The session endpoint *)

Section SessionInfo.
Context `{R : Runtime} `{W : World}.

(** [get_session_info] awaits the dict that [get_available_voices] returns,
    so it raises TypeError in every state and [GET /api/session] always
    answers with status 500; the state is left as it was. *)
Theorem session_info_always_fails (srv : server) :
  get_session_info (handler srv) = (Raise TypeError, handler srv) ∧
  api_session srv =
    (Raise (HTTPException 500 "Error retrieving session information"), srv).
Proof.
  assert (Hinfo : get_session_info (handler srv)
                  = (Raise TypeError, handler srv)).
  { unfold get_session_info, bind, get_session, get_conversation_summary,
      lift.
    by destruct (conversation_history (handler srv)). }
  split; [done|]. unfold api_session. rewrite Hinfo. by destruct srv.
Qed.
End SessionInfo.

(** ** Audio validation *)

Lemma bytes_startswith_take (prefix data : bytes) (n : nat) :
  (length prefix ≤ n)%nat →
  bytes_startswith prefix (take n data) = bytes_startswith prefix data.
Proof.
  revert data n. induction prefix as [|p prefix IH]; intros data n Hn.
  - by destruct (take n data), data.
  - destruct n as [|n]; [simpl in Hn; lia|].
    destruct data as [|d data]; [done|]. simpl.
    rewrite IH; [done | simpl in Hn; lia].
Qed.

(** The verdict of [validate_audio_format] depends on the first 20 bytes
    only; data of fewer than 3 bytes is always rejected, and any data that
    starts with RIFF is accepted. *)
Theorem validate_audio_format_prefix (audio_data tail : bytes) :
  validate_audio_format audio_data
    = validate_audio_format (take 20 audio_data) ∧
  ((length audio_data < 3)%nat → validate_audio_format audio_data = false) ∧
  validate_audio_format
    ([Byte.x52; Byte.x49; Byte.x46; Byte.x46] ++ tail) = true.
Proof.
  split_and!.
  - unfold validate_audio_format. cbv zeta.
    rewrite !bytes_startswith_take by (simpl; lia).
    by rewrite take_take.
  - intros Hlen.
    destruct audio_data as [|a [|b [|c rest]]]; simpl in Hlen; try lia;
      unfold validate_audio_format; simpl;
      by rewrite ?andb_false_r.
  - unfold validate_audio_format. simpl. done.
Qed.

(** ** Headlines for display *)

Lemma headlines_loop_normalized (news_articles headlines : list pyval)
    (raws : list (list (string * pyval))) (first : Z) :
  (∀ (k : nat) article,
     news_articles !! k = Some article →
     ∃ raw,
       raws !! k = Some raw ∧
       article = normalized_article (first + Z.of_nat k) raw) →
  length raws = length news_articles →
  headlines_loop news_articles headlines
  = Ok (headlines ++ (headline_view <$> raws))%list.
Proof.
  revert headlines raws first.
  induction news_articles as [|article rest IH];
    intros headlines raws first Hnorm Hlen.
  - destruct raws; [|done]. simpl. by rewrite app_nil_r.
  - destruct raws as [|raw raws]; [done|].
    destruct (Hnorm 0%nat article eq_refl) as (raw' & [= <-] & ->).
    simpl. rewrite (IH _ raws (first + 1)).
    + by rewrite <- app_assoc.
    + intros k a Hk. destruct (Hnorm (S k) a Hk) as (raw'' & Hraw & ->).
      exists raw''. split; [done|]. f_equal. lia.
    + simpl in Hlen. lia.
Qed.

Section Display.
Context `{W : World}.

(** [get_headlines_only] never raises, makes the one request for the top 5
    headlines of the category in the US, and leaves history and session
    alone.  It returns at most 5 entries, one for each article that
    [get_top_headlines] returns, in the provider's order; the entry at a
    position holds the title, source name and date of the provider's
    article at that position, the empty string for a key the provider left
    out. *)
Theorem get_headlines_only_projects (category : pyval) (st : state) :
  let query := TopHeadlines category "us" 5 in
  let answer := newsapi_get (trace st) query in
  ∃ headlines,
    get_headlines_only category st =
      (Ok headlines, record_call (NewsGet query) st) ∧
    (length headlines ≤ 5)%nat ∧
    length headlines = length (headlines_of answer 5) ∧
    ∀ (k : nat) headline,
      headlines !! k = Some headline →
      ∃ raw,
        provider_articles answer !! k = Some (PyDict raw) ∧
        headline = headline_view raw.
Proof.
  intros query answer.
  destruct (headlines_of_normalized answer 5) as (Hmax & Hnorm).
  (* the provider articles behind the formatted ones *)
  assert (∃ raws,
    length raws = length (headlines_of answer 5) ∧
    ∀ (k : nat) article,
      headlines_of answer 5 !! k = Some article →
      ∃ raw,
        raws !! k = Some raw ∧
        provider_articles answer !! k = Some (PyDict raw) ∧
        article = normalized_article (1 + Z.of_nat k) raw)
    as (raws & Hlen & Hraws).
  { revert Hnorm. generalize (provider_articles answer).
    generalize (headlines_of answer 5). intros formatted.
    induction formatted as [|article rest IH] using rev_ind;
      intros provider Hnorm.
    - exists []. split; [done|]. intros k article Hk. done.
    - destruct (IH provider) as (raws & Hlen & Hraws).
      { intros k a Hk. apply Hnorm. by apply lookup_app_l_Some. }
      destruct (Hnorm (length rest) article) as (raw & Hraw & ->).
      { by rewrite lookup_app_r, Nat.sub_diag by lia. }
      exists (raws ++ [raw])%list. split.
      { rewrite !length_app. simpl. lia. }
      intros k a Hk.
      destruct (decide (k < length rest)%nat) as [Hlt|Hge].
      + rewrite lookup_app_l in Hk by done.
        destruct (Hraws k a Hk) as (raw' & ? & ? & ?).
        exists raw'. rewrite lookup_app_l by lia. done.
      + assert (k = length rest) as ->.
        { apply lookup_lt_Some in Hk. rewrite length_app in Hk.
          simpl in Hk. lia. }
        rewrite lookup_app_r, Nat.sub_diag in Hk by lia.
        injection Hk as <-. exists raw.
        rewrite lookup_app_r, Hlen, Nat.sub_diag by lia.
        split_and!; [done|done|]. f_equal. lia. }
  exists (headline_view <$> raws).
  unfold get_headlines_only, try_except.
  erewrite bind_Ok by apply get_top_headlines_run.
  unfold lift. fold query. fold answer.
  rewrite (headlines_loop_normalized _ [] raws 1); [| |done].
  2:{ intros k article Hk.
      destruct (Hraws k article Hk) as (raw & Hraw & _ & ->). eauto. }
  split_and!; [done| | |].
  - rewrite length_fmap, Hlen. apply Hmax. lia.
  - by rewrite length_fmap.
  - intros k headline Hk. apply list_lookup_fmap_Some in Hk as (raw & -> & Hraw).
    assert (is_Some (headlines_of answer 5 !! k)) as [article Harticle].
    { apply lookup_lt_is_Some. rewrite <- Hlen. by eapply lookup_lt_Some. }
    destruct (Hraws k article Harticle) as (raw' & Hraw' & Hprovider & _).
    exists raw. split; [congruence | done].
Qed.
End Display.

(** ** Turns that only respond *)

Section RespondOnly.
Context `{R : Runtime} `{W : World}.

Lemma handle_intent_respond_only (d : list (string * pyval)) (st : state) :
  py_eq (answer_action d) (PyStr "fetch_news") = false →
  py_eq (answer_action d) (PyStr "search_news") = false →
  _handle_intent (PyDict d) st =
  (Ok (match dict_get d "response" with
       | Some v => v
       | None => PyStr "I'm here to help you with news updates!"
       end), st).
Proof.
  intros Hfetch Hsearch.
  unfold _handle_intent, bind at 1, lift, py_get. simpl.
  unfold bind at 1. simpl. fold (answer_action d).
  unfold try_except. by rewrite Hfetch, Hsearch.
Qed.

Lemma respond_only_turn (text_input voice_type : string) (st : state)
    (d : list (string * pyval)) :
  let classified := after_classification text_input st in
  let response :=
    match dict_get d "response" with
    | Some v => v
    | None => PyStr "I'm here to help you with news updates!"
    end in
  process_user_input text_input st = (Ok (PyDict d), classified) →
  py_eq (answer_action d) (PyStr "fetch_news") = false →
  py_eq (answer_action d) (PyStr "search_news") = false →
  handle_text_input text_input voice_type st =
  (Ok (response, speech_outcome (trace classified) response voice_type),
   record_call (Speak (selected_voice voice_type) response) classified).
Proof.
  intros classified response Hrun Hfetch Hsearch.
  unfold handle_text_input, handle_text_input_body, try_except.
  erewrite bind_Ok by exact Hrun.
  erewrite bind_Ok by (by apply handle_intent_respond_only).
  erewrite bind_Ok by apply synthesize_speech_run. done.
Qed.

(** When the classifier's answer asks for neither a fetch nor a search,
    whatever its action says, the turn returns the answer's draft response
    unchanged, or [I'm here to help you with news updates!] when the answer
    has none.  The only provider calls of the turn are the chat request and
    one synthesis of that response: the news API is not called, and the
    session stays as it was. *)
Theorem respond_only_is_verbatim (text_input voice_type : string) (st : state)
    (d : list (string * pyval)) :
  (process_user_input text_input st).1 = Ok (PyDict d) →
  py_eq (answer_action d) (PyStr "fetch_news") = false →
  py_eq (answer_action d) (PyStr "search_news") = false →
  let response :=
    match dict_get d "response" with
    | Some v => v
    | None => PyStr "I'm here to help you with news updates!"
    end in
  ∃ audio_response st',
    handle_text_input text_input voice_type st =
      (Ok (response, audio_response), st') ∧
    current_session st' = current_session st ∧
    trace st' =
      (trace st
       ++ [ChatCompletion
             (request_messages
                (conversation_history st ++ [user_message text_input]));
           Speak (selected_voice voice_type) response])%list.
Proof.
  intros Hrun Hfetch Hsearch response.
  destruct (process_user_input_run text_input st) as [ai_response Hrun'].
  rewrite Hrun' in Hrun. injection Hrun as ->.
  rewrite (respond_only_turn _ _ _ d Hrun' Hfetch Hsearch).
  eexists _, _. split_and!; [done|done|]. simpl. by rewrite <- app_assoc.
Qed.

(** When the chat request fails or carries no content, the turn never
    raises: it returns the fixed apology of the classifier, after one
    synthesis attempt for it; the user's message stays in the history
    without a reply, the session is unchanged and the news API is not
    called. *)
Theorem upstream_failure_apologises (text_input voice_type : string)
    (st : state) :
  let history :=
    (conversation_history st ++ [user_message text_input])%list in
  let apology :=
    PyStr "I'm sorry, I'm having trouble processing your request right now. Please try again." in
  (∀ reply, openai_chat (trace st) (request_messages history)
            ≠ Ok (Some reply)) →
  ∃ audio_response st',
    handle_text_input text_input voice_type st =
      (Ok (apology, audio_response), st') ∧
    conversation_history st' = history ∧
    current_session st' = current_session st ∧
    trace st' =
      (trace st ++ [ChatCompletion (request_messages history);
                    Speak (selected_voice voice_type) apology])%list.
Proof.
  intros history apology Hfail.
  assert (Hrun : process_user_input text_input st =
                 (Ok (PyDict
                        [("intent", PyStr "general_conversation");
                         ("response", apology);
                         ("action", PyStr "respond_only")]),
                  after_classification text_input st)).
  { unfold process_user_input, after_classification, try_except, bind,
      history_append, get_history, call_chat, lift, ret, record_call.
    simpl. fold history.
    destruct (openai_chat _ _) as [[c|]|e] eqn:Hchat; try done.
    by destruct (Hfail c). }
  rewrite (respond_only_turn _ _ _ _ Hrun); [|done|done].
  eexists _, _. split_and!; [done| |done|].
  - unfold after_classification. simpl. fold history.
    destruct (openai_chat _ _) as [[c|]|e] eqn:Hchat; try done.
    by destruct (Hfail c).
  - simpl. by rewrite <- app_assoc.
Qed.
End RespondOnly.

(** The model replies with prose to [hello there]: the fallback greets. *)
Lemma respond_only_witness :
  let W := constant_world "Hi!" (Ok PyNone) None in
  (@handle_text_input ascii_runtime W "hello there" "female"
     initial_state).1 =
  Ok (PyStr "Hello! I'm Akashvani AI, your voice assistant for news updates. Ask me for news from any category like technology, politics, sports, or entertainment!",
      Some [Byte.x52]).
Proof.
  intros W.
  destruct (@respond_only_is_verbatim ascii_runtime W "hello there" "female"
              initial_state
              (@_parse_fallback_response ascii_runtime "Hi!" "hello there"))
    as (audio_response & st' & Hrun & _); [reflexivity..|].
  rewrite Hrun in *. revert Hrun. vm_compute. by intros [= <- _].
Defined.

(** The language model is out of quota and the synthesizer is down. *)
Lemma upstream_failure_witness :
  (@handle_text_input ascii_runtime (sports_down_world PyNone) "any news"
     "female" initial_state).1 =
  Ok (PyStr "I'm sorry, I'm having trouble processing your request right now. Please try again.",
      None).
Proof.
  destruct (@upstream_failure_apologises ascii_runtime
              (sports_down_world PyNone) "any news" "female" initial_state)
    as (audio_response & st' & Hrun & _); [done|].
  rewrite Hrun in *. revert Hrun. vm_compute. by intros [= <- _].
Defined.

(** ** What the news branches request and say *)

Section Branches.
Context `{R : Runtime} `{W : World}.

(** A fetch for the category general asks the provider once for each of the
    seven categories, in their order, for 3 articles, and answers with the
    briefing; a fetch for any other category asks once for the top 5 of
    that category in the US, and when nothing comes back it answers with an
    apology naming the category.  The history is not touched. *)
Theorem news_request_calls (ai_response : list (string * pyval))
    (st : state) :
  let category := answer_category ai_response in
  ∃ result st',
    _handle_news_request (PyDict ai_response) st = (result, st') ∧
    conversation_history st' = conversation_history st ∧
    (py_eq category (PyStr "general") = true →
       trace st' =
         (trace st ++ (NewsGet ∘ category_query 3 <$> NEWS_CATEGORIES))%list ∧
       result =
         Ok (_format_general_news_update
               (category_entries NEWS_CATEGORIES 3 (trace st)))) ∧
    (py_eq category (PyStr "general") = false →
       trace st' = (trace st ++ [NewsGet (TopHeadlines category "us" 5)])%list ∧
       (fetched_headlines (trace st) category = [] →
          result =
            Ok ("I'm sorry, I couldn't fetch " ++ py_format category
                ++ " news at the moment. Would you like news from another category?"))).
Proof.
  intros category.
  unfold _handle_news_request, bind at 1, lift, py_get. simpl.
  fold (answer_category ai_response). fold category.
  destruct (py_eq category (PyStr "general")) eqn:Hgeneral.
  - unfold bind. rewrite get_all_categories_news_run. unfold ret. simpl.
    eexists _, _. split_and!; done.
  - unfold bind. rewrite get_top_headlines_run. simpl.
    fold (fetched_headlines (trace st) category).
    destruct (fetched_headlines (trace st) category) as [|a l] eqn:Hf.
    + simpl. eexists _, _. split_and!; done.
    + destruct (format_news_for_speech (a :: l) category); simpl;
        eexists _, _; split_and!; done.
Qed.

(** A search without a topic calls no provider and asks for a topic.  A
    search for a topic asks the provider once for 5 articles about it, and
    when nothing comes back it answers that nothing recent was found, naming
    the topic.  The history is not touched. *)
Theorem news_search_calls (ai_response : list (string * pyval))
    (st : state) :
  let search_query := answer_search_query ai_response in
  ∃ result st',
    _handle_news_search (PyDict ai_response) st = (result, st') ∧
    conversation_history st' = conversation_history st ∧
    (py_truthy search_query = false →
       st' = st ∧
       result =
         Ok "I need a specific topic to search for. What news would you like me to find?") ∧
    (py_truthy search_query = true →
       trace st' = (trace st ++ [NewsGet (Everything search_query 5)])%list ∧
       (found_articles (trace st) search_query = [] →
          result =
            Ok ("I couldn't find any recent news about '"
                ++ py_format search_query
                ++ "'. Would you like me to search for something else?"))).
Proof.
  intros search_query.
  unfold _handle_news_search, bind at 1, lift, py_get. simpl.
  fold (field_or_empty ai_response "search_query").
  fold (answer_search_query ai_response). fold search_query.
  destruct (py_truthy search_query) eqn:Hq; simpl.
  - unfold bind. rewrite search_news_run. simpl.
    fold (found_articles (trace st) search_query).
    destruct (found_articles (trace st) search_query) as [|a l] eqn:Hf.
    + simpl. eexists _, _. split_and!; done.
    + destruct (format_news_for_speech (a :: l) _); simpl;
        eexists _, _; split_and!; done.
  - unfold ret. eexists _, _. split_and!; done.
Qed.
End Branches.

(** ** Follow-up questions *)

Section FollowupProperties.
Context `{R : Runtime} `{W : World}.
Variable json_dumps : gmap string pyval -> string.

(** [handle_followup] never raises.  With an empty session it calls no
    provider and asks what the user wants to know.  Otherwise it sends one
    chat request whose only message is the follow-up prompt with the
    question and the session, and returns the stripped reply, or a fixed
    request to repeat the question when the call fails.  In both cases
    session and conversation history stay as they were: the exchange is not
    added to the history. *)
Theorem handle_followup_outcome (user_input : string) (st : state) :
  let request :=
    [{| role := "user";
        content := followup_prompt json_dumps user_input (current_session st) |}] in
  (current_session st = ∅ →
     handle_followup json_dumps user_input st =
       (Ok "What would you like to know about? I can provide news updates from various categories.",
        st)) ∧
  (current_session st ≠ ∅ →
     handle_followup json_dumps user_input st =
       (Ok (match openai_chat (trace st) request with
            | Ok (Some reply) => str_strip reply
            | _ =>
                "I'm sorry, could you please repeat your question? I want to make sure I understand what you're looking for."
            end),
        record_call (ChatCompletion request) st)).
Proof.
  intros request.
  split; intros Hsession;
    unfold handle_followup, bind at 1, get_session; cbn beta iota;
    match goal with
    | |- context [@decide ?P ?dec] => destruct (@decide P dec)
    end; try done.
  unfold handle_followup_question, try_except, bind, call_chat, lift, ret.
  fold request. by destruct (openai_chat _ _) as [[reply|]|e].
Qed.
End FollowupProperties.

(** A fresh process has a voice preference in its session, so a follow-up
    reaches the language model; here it is out of quota. *)
Lemma handle_followup_witness :
  (@handle_followup ascii_runtime (sports_down_world PyNone)
     (fun _ => "{}") "and then?" initial_state).1 =
  Ok "I'm sorry, could you please repeat your question? I want to make sure I understand what you're looking for.".
Proof.
  pose proof (@handle_followup_outcome ascii_runtime
                (sports_down_world PyNone) (fun _ => "{}") "and then?"
                initial_state) as [_ Hcall].
  rewrite Hcall; [reflexivity|].
  intros Hempty.
  assert (Hlookup : current_session initial_state !! "voice_preference"
                    = Some (PyStr "female")) by reflexivity.
  rewrite Hempty in Hlookup. discriminate.
Defined.

(** ** The briefing over all categories *)

Lemma str_concat_app (xs ys : list string) :
  String.concat "" (xs ++ ys) = String.concat "" xs ++ String.concat "" ys.
Proof.
  induction xs as [|x xs IH]; [done|].
  rewrite <- app_comm_cons, !str_concat_cons, IH. by rewrite str_app_assoc.
Qed.

Section Briefing.
Context `{R : Runtime}.

Lemma general_news_loop_lines (items : list (string * list pyval))
    (response : string) :
  Forall first_is_dict items →
  general_news_loop items response =
  Ok (response ++ String.concat "" (briefing_line <$> items)).
Proof.
  revert response. induction items as [|[category articles] rest IH];
    intros response Hall.
  - simpl. by rewrite str_app_nil_r.
  - apply Forall_cons in Hall as [Hfirst Hall].
    rewrite fmap_cons, str_concat_cons.
    destruct articles as [|article more].
    + simpl. by rewrite IH.
    + destruct Hfirst as [raw ->]. simpl. rewrite IH by done.
      unfold briefing_line. simpl. by rewrite !str_app_assoc.
Qed.

Lemma general_news_loop_raises (items : list (string * list pyval))
    (response : string) :
  Exists (fun entry => ¬ first_is_dict entry) items →
  ∃ e, general_news_loop items response = Raise e.
Proof.
  revert response. induction items as [|[category articles] rest IH];
    intros response Hex.
  - by apply Exists_nil in Hex.
  - destruct articles as [|article more].
    + apply Exists_cons in Hex as [Hbad|Hex]; [by destruct Hbad|].
      simpl. by apply IH.
    + destruct article as [| | | |l|raw];
        try (by eexists).
      apply Exists_cons in Hex as [Hbad|Hex].
      { destruct Hbad. by exists raw. }
      simpl. by apply IH.
Qed.

(** [_format_general_news_update] never raises.  When the first article of
    every category is a dictionary, as in every batch of
    [get_all_categories_news], the briefing is the opening line, then for
    each category that has articles, in the order of the batch, the title of
    its first article, and the closing question; categories without
    articles are passed over.  When some category starts with anything
    else, the whole briefing is replaced by the fixed short update. *)
Theorem general_briefing_lines (all_news : list (string * list pyval)) :
  (Forall first_is_dict all_news →
     _format_general_news_update all_news =
       "Here's your news briefing from Akashvani AI." ++ nl ++ nl
       ++ String.concat "" (briefing_line <$> all_news)
       ++ "Which category would you like me to read in detail?") ∧
  (Exists (fun entry => ¬ first_is_dict entry) all_news →
     _format_general_news_update all_news =
       "Here's a quick news update. I have the latest stories from technology, politics, sports, and entertainment. Which category interests you most?") ∧
  (Forall (fun entry => entry.2 = []) all_news →
     _format_general_news_update all_news =
       "Here's your news briefing from Akashvani AI." ++ nl ++ nl
       ++ "Which category would you like me to read in detail?").
Proof.
  unfold _format_general_news_update. split_and!.
  - intros Hall. rewrite general_news_loop_lines by done.
    by rewrite !str_app_assoc.
  - intros Hex.
    by destruct (general_news_loop_raises all_news
                   ("Here's your news briefing from Akashvani AI." ++ nl ++ nl)
                   Hex) as [e ->].
  - intros Hempty. rewrite general_news_loop_lines.
    + replace (String.concat "" (briefing_line <$> all_news)) with "".
      { by rewrite !str_app_assoc. }
      induction Hempty as [|[category articles] rest Hnil _ IH]; [done|].
      simpl in Hnil. subst articles.
      by rewrite fmap_cons, str_concat_cons, <- IH.
    + eapply Forall_impl; [exact Hempty|].
      intros [category articles] Hnil. simpl in Hnil. by subst articles.
Qed.
End Briefing.

(** Technology has an article, politics has none. *)
Lemma general_briefing_witness :
  @_format_general_news_update ascii_runtime
    [("technology", [PyDict [("title", PyStr "Chip prices fall")]]);
     ("politics", [])] =
  "Here's your news briefing from Akashvani AI." ++ nl ++ nl
  ++ "Top technology headline: Chip prices fall." ++ nl ++ nl
  ++ "Which category would you like me to read in detail?".
Proof.
  pose proof (@general_briefing_lines ascii_runtime
                [("technology", [PyDict [("title", PyStr "Chip prices fall")]]);
                 ("politics", [])]) as (Hlines & _).
  rewrite Hlines; [reflexivity|].
  repeat constructor. by eexists.
Defined.

(** ** The basic summary *)

Section BasicSummary.
Context `{R : Runtime}.

Lemma basic_summary_loop_cons (raw : list (string * pyval))
    (rest : list pyval) (i : Z) (summary : string) :
  basic_summary_loop i (PyDict raw :: rest) summary =
  basic_summary_loop (i + 1) rest
    (summary ++ "News " ++ str_of_int i ++ ": "
     ++ py_format (match dict_get raw "title" with
                   | Some v => v
                   | None => PyStr "No title"
                   end)
     ++ " from "
     ++ py_format (match dict_get raw "source" with
                   | Some v => v
                   | None => PyStr "Unknown source"
                   end)
     ++ ". ").
Proof. reflexivity. Qed.

Lemma basic_summary_loop_lines (articles : list pyval) (i : nat)
    (summary : string) :
  Forall (fun article => ∃ raw, article = PyDict raw) articles →
  ∃ lines,
    basic_summary_loop (Z.of_nat i + 1) articles summary =
      Ok (summary ++ String.concat "" lines) ∧
    length lines = length articles ∧
    ∀ (k : nat) raw,
      articles !! k = Some (PyDict raw) →
      lines !! k = Some (basic_line (i + k) raw).
Proof.
  revert i summary. induction articles as [|article rest IH];
    intros i summary Hall.
  - exists []. simpl. rewrite str_app_nil_r. done.
  - apply Forall_cons in Hall as [[raw ->] Hall].
    destruct (IH (S i) (summary ++ basic_line i raw) Hall)
      as (lines & Hrun & Hlen & Hlines).
    exists (basic_line i raw :: lines). split_and!.
    + rewrite str_concat_cons, basic_summary_loop_cons.
      replace (Z.of_nat i + 1 + 1) with (Z.of_nat (S i) + 1) by lia.
      unfold basic_line in *. rewrite !str_app_assoc in Hrun.
      rewrite Hrun. by rewrite !str_app_assoc.
    + simpl. by rewrite Hlen.
    + intros [|k] raw'; simpl.
      * intros [= <-]. by rewrite Nat.add_0_r.
      * intros Hk. rewrite (Hlines k raw' Hk).
        by replace (i + S k)%nat with (S i + k)%nat by lia.
Qed.

(** [_format_basic_news_summary] says [No news available at the moment.]
    for no article.  For articles that are dictionaries it returns one
    sentence [News k: title from source. ] for each of the first five, in
    order, with [No title] and [Unknown source] for a missing key; what
    comes after the fifth article does not change the summary. *)
Theorem basic_summary_first_five (articles more : list pyval) :
  Forall (fun article => ∃ raw, article = PyDict raw) articles →
  _format_basic_news_summary [] = Ok "No news available at the moment." ∧
  (∃ lines,
     (articles ≠ [] →
      _format_basic_news_summary articles = Ok (String.concat "" lines)) ∧
     length lines = (length articles `min` 5)%nat ∧
     ∀ (k : nat) raw,
       (k < 5)%nat → articles !! k = Some (PyDict raw) →
       lines !! k = Some (basic_line k raw)) ∧
  ((5 ≤ length articles)%nat →
     _format_basic_news_summary (articles ++ more) =
     _format_basic_news_summary articles).
Proof.
  intros Hall. split; [done|]. split.
  - destruct (basic_summary_loop_lines (take 5 articles) 0 "")
      as (lines & Hrun & Hlen & Hlines).
    { by apply Forall_take. }
    exists lines. split_and!.
    + intros Hne. unfold _format_basic_news_summary.
      destruct articles as [|a l]; [done|].
      unfold slice_to. change (0 <=? 5) with true. cbv iota.
      change (Z.to_nat 5) with 5%nat. exact Hrun.
    + rewrite Hlen, length_take. lia.
    + intros k raw Hk Harticle. apply Hlines.
      by rewrite lookup_take_lt.
  - intros Hlen. unfold _format_basic_news_summary.
    destruct articles as [|a l]; [simpl in Hlen; lia|].
    rewrite <- app_comm_cons. unfold slice_to.
    change (0 <=? 5) with true. cbv iota. change (Z.to_nat 5) with 5%nat.
    rewrite app_comm_cons. by rewrite take_app_le.
Qed.
End BasicSummary.

(** Six articles: the sixth is not mentioned. *)
Lemma basic_summary_witness :
  let article title := PyDict [("title", PyStr title); ("source", PyStr "Wire")] in
  @_format_basic_news_summary ascii_runtime
    ([article "a"; article "b"; article "c"; article "d"; article "e"]
     ++ [article "f"]) =
  @_format_basic_news_summary ascii_runtime
    [article "a"; article "b"; article "c"; article "d"; article "e"].
Proof.
  intros article.
  refine (proj2 (proj2 (@basic_summary_first_five ascii_runtime
                          [article "a"; article "b"; article "c";
                           article "d"; article "e"] [article "f"] _)) _).
  - repeat constructor; by eexists.
  - simpl. lia.
Defined.

(** ** The formatter of the news endpoint *)

Section NewsFormat.
Context `{R : Runtime}.

Lemma news_speech_loop_normalized (articles : list pyval)
    (speech_text : string) :
  Forall (fun article =>
            is_article article ∧
            ∃ number raw, article = normalized_article number raw) articles →
  ∃ body,
    NewsService.speech_loop articles speech_text = Ok (speech_text ++ body).
Proof.
  revert speech_text. induction articles as [|article rest IH];
    intros speech_text Hall.
  - exists "". simpl. by rewrite str_app_nil_r.
  - apply Forall_cons in Hall as [[Harticle (number & raw & ->)] Hall].
    destruct Harticle as (d & [= <-] & Hdesc).
    specialize (Hdesc (field_or_empty raw "description") eq_refl).
    assert (∃ text, ∀ acc,
      NewsService.speech_loop (normalized_article number raw :: rest) acc =
      NewsService.speech_loop rest (acc ++ text)) as [text Hstep].
    { unfold normalized_article.
      cbn [NewsService.speech_loop py_subscript dict_get String.eqb
           Ascii.eqb Bool.eqb rbind].
      generalize (field_or_empty raw "title") (source_name raw).
      intros title source.
      assert (∃ d, py_or (field_or_empty raw "description")
                     (PyStr "No description available") = PyStr d ∧
                   py_truthy (PyStr d) = true) as (d & -> & Htruthy).
      { destruct Hdesc as [->|[d ->]]; [by eexists|].
        unfold py_or. destruct (py_truthy (PyStr d)) eqn:Hd; by eexists. }
      rewrite Htruthy. cbn [andb].
      destruct (negb (py_eq (PyStr d) title)); cbn [rbind].
      - eexists. intros acc. f_equal. rewrite !str_app_assoc. reflexivity.
      - eexists. intros acc. f_equal. rewrite !str_app_assoc. reflexivity. }
    destruct (IH (speech_text ++ text) Hall) as [body Hbody].
    exists (text ++ body). by rewrite Hstep, Hbody, str_app_assoc.
Qed.

(** On what [get_top_headlines] and [search_news] return, the formatter of
    the news endpoint does not fail for want of a key: normalization puts
    number, title, description and source into every article.  When the
    descriptions are strings or null it returns, for no article, the apology
    naming the label, and otherwise a text that starts with the header
    giving the number of articles and the label.  An article without a
    title key, in contrast, raises KeyError. *)
Theorem news_format_on_headlines (answer : result pyval) (limit : Z)
    (label : pyval) :
  let articles := headlines_of answer limit in
  Forall is_article articles →
  (articles = [] →
     NewsService.format_news_for_speech articles label =
       Ok ("Sorry, I couldn't fetch any news for " ++ py_format label
           ++ " at the moment.")) ∧
  (articles ≠ [] →
     ∃ body,
       NewsService.format_news_for_speech articles label =
         Ok ("Here are the top " ++ str_of_int (Z.of_nat (length articles))
             ++ " " ++ py_format label ++ " news updates:" ++ nl ++ nl
             ++ body)) ∧
  (∀ raw rest,
     dict_get raw "title" = None →
     NewsService.format_news_for_speech (PyDict raw :: rest) label =
       Raise KeyError).
Proof.
  intros articles Harticles. split_and!.
  - by intros ->.
  - intros Hne.
    destruct (news_speech_loop_normalized articles
                ("Here are the top " ++ str_of_int (Z.of_nat (length articles))
                 ++ " " ++ py_format label ++ " news updates:" ++ nl ++ nl))
      as [body Hbody].
    { apply Forall_lookup. intros k article Hk. split.
      - by apply (proj1 (Forall_lookup _ _) Harticles k).
      - destruct (headlines_of_normalized answer limit) as (_ & Hnorm).
        destruct (Hnorm k article Hk) as (raw & _ & ->). eauto. }
    exists body. unfold NewsService.format_news_for_speech.
    destruct articles; [done|]. rewrite Hbody. by rewrite !str_app_assoc.
  - intros raw rest Hnone. unfold NewsService.format_news_for_speech.
    cbn [NewsService.speech_loop py_subscript]. by rewrite Hnone.
Qed.
End NewsFormat.

(** One article without a description: it is read as having none. *)
Lemma news_format_witness :
  let answer :=
    Ok (PyDict [("articles",
                 PyList [PyDict [("title", PyStr "Final score");
                                 ("description", PyNone)]])]) in
  ∃ body,
    @NewsService.format_news_for_speech ascii_runtime (headlines_of answer 5)
      (PyStr "sports") =
    Ok ("Here are the top 1 sports news updates:" ++ nl ++ nl ++ body).
Proof.
  intros answer.
  destruct (@news_format_on_headlines ascii_runtime answer 5 (PyStr "sports"))
    as (_ & Hbody & _).
  - repeat constructor. eexists. split; [reflexivity|].
    intros v [= <-]. by left.
  - destruct Hbody as [body Hbody]; [discriminate|]. by exists body.
Defined.

(** ** The text endpoint and the audio it registers *)

Section TextEndpoint.
Context `{R : Runtime} `{W : World}.

Lemma handle_text_input_total (text_input voice_type : string) (st : state) :
  ∃ final audio st1,
    handle_text_input text_input voice_type st = (Ok (final, audio), st1).
Proof.
  unfold handle_text_input, try_except.
  destruct (handle_text_input_body text_input voice_type st)
    as [[[final audio]|e] st1]; unfold ret; eauto.
Qed.

Lemma get_headlines_only_total (category : pyval) (st : state) :
  ∃ headlines st1, get_headlines_only category st = (Ok headlines, st1).
Proof.
  unfold get_headlines_only, try_except.
  destruct (bind _ _ st) as [[headlines|e] st1]; unfold ret; eauto.
Qed.

Lemma display_headlines_str (s : string) (searched : string) (st : state) :
  ∃ headlines st1,
    display_headlines (PyStr s) (Ok searched) st = (Ok headlines, st1).
Proof.
  unfold display_headlines, bind at 1, lift, py_lower.
  destruct (_ || _); [|unfold ret; eauto].
  unfold bind at 1.
  destruct (find _ _) as [category|]; [|unfold ret; eauto].
  destruct (get_headlines_only_total (PyStr category) st)
    as (headlines & st1 & Hrun).
  erewrite bind_Ok by exact Hrun. unfold ret. eauto.
Qed.

(** [POST /api/text] answers with status 500 exactly when the handler's text
    is not a string, and then registers nothing.  Otherwise the reply
    carries the handler's text; audio is reported available when the
    handler returned any; when the audio is not empty it is registered
    under the fresh identifier, the reply's URL names that identifier, one
    [GET] of it returns exactly that audio and a second one fails; when
    there is no audio, or it is empty, the reply has no URL and the
    registry is unchanged.  Entries under other identifiers are never
    touched. *)
Theorem api_text_registers_audio (audio_id text voice_type : string)
    (srv : server) :
  ∃ final audio st1,
    handle_text_input text voice_type (handler srv)
      = (Ok (final, audio), st1) ∧
    match final with
    | PyStr _ =>
        ∃ reply srv',
          api_text audio_id text voice_type srv = (Ok reply, srv') ∧
          text_response reply = final ∧
          audio_available reply =
            match audio with Some _ => true | None => false end ∧
          match audio with
          | Some (b :: rest) =>
              audio_url reply = Some ("/api/audio/" ++ audio_id) ∧
              (api_audio audio_id srv').1 = Ok (b :: rest) ∧
              (api_audio audio_id (api_audio audio_id srv').2).1
                = Raise (HTTPException 500 "Error serving audio")
          | _ =>
              audio_url reply = None ∧
              audio_storage srv' = audio_storage srv
          end ∧
          ∀ K, K ≠ audio_id →
               audio_storage srv' !! K = audio_storage srv !! K
    | _ =>
        api_text audio_id text voice_type srv =
          (Raise (HTTPException 500 "Error processing text input"),
           {| handler := st1; audio_storage := audio_storage srv |})
    end.
Proof.
  destruct (handle_text_input_total text voice_type (handler srv))
    as (final & audio & st1 & Hrun).
  exists final, audio, st1. split; [done|].
  unfold api_text. erewrite bind_Ok by exact Hrun. cbn [fst].
  destruct final as [| | |s|l|d];
    try (by unfold display_headlines, bind at 1, lift, py_lower).
  destruct (display_headlines_str s (str_lower text) st1)
    as (headlines & st2 & Hdisplay).
  erewrite bind_Ok by exact Hdisplay. unfold ret.
  eexists _, _. split; [done|].
  unfold reply_with_audio. destruct audio as [[|b rest]|]; cbn.
  - split_and!; done.
  - split_and!; try done.
    + unfold serve_audio, serve_audio_body. by rewrite lookup_insert_eq.
    + unfold serve_audio, serve_audio_body. rewrite lookup_insert_eq. cbn.
      by rewrite lookup_delete_eq.
    + intros K HK. by rewrite lookup_insert_ne.
  - split_and!; done.
Qed.
End TextEndpoint.

(** ** An article of a stored list *)

(** After a turn that fetched one sports article, article 1 is read out in
    detail and article 2 is not there. *)
Lemma get_detailed_article_of_list_witness :
  let W :=
    constant_world "Here you go!"
      (Ok (PyDict [("articles",
                    PyList [full_article "Cup final tonight"
                              "Kick-off is at eight"])])) None in
  let after :=
    (@handle_text_input ascii_runtime W "sports news" "female"
       initial_state).2 in
  (@get_detailed_article ascii_runtime 1 after).1 =
    Ok "Here's more detail about article 1: Cup final tonight. Kick-off is at eight This story is from Wire." ∧
  (@get_detailed_article ascii_runtime 2 after).1 =
    Ok "I don't have that article number. Please ask for a valid article number from the recent news.".
Proof.
  intros W after.
  assert (Hstored : ∃ stored,
            current_session after !! "last_news_data" = Some (PyList stored) ∧
            length stored = 1%nat ∧
            Forall (fun article => ∃ raw, article = PyDict raw) stored).
  { eexists. split_and!; [by vm_compute|done|].
    repeat constructor. by eexists. }
  destruct Hstored as (stored & Hstored & Hlen & Hdicts).
  split.
  - destruct (@get_detailed_article_of_list ascii_runtime 1 after stored)
      as (text & Hrun & _ & _); [by right|done|].
    rewrite Hrun. revert Hrun. vm_compute. by intros [= <-].
  - destruct (@get_detailed_article_of_list ascii_runtime 2 after stored)
      as (text & Hrun & Hout & _); [by right|done|].
    rewrite Hrun. cbn [fst]. f_equal. apply Hout. right. rewrite Hlen. lia.
Defined.

(** ** Voice turns, cleared histories and the rest of the session *)

Section Composition.
Context `{R : Runtime} `{W : World}.

(** A voice turn whose audio gave a transcript is the text turn for that
    transcript, made after the transcription call: same text, same audio,
    same state afterwards, whenever the classifier's answer is an object. *)
Theorem voice_turn_is_text_turn (audio_data : bytes) (voice_type : string)
    (st : state) (c : ascii) (rest : string) (d : list (string * pyval)) :
  let transcript := String c rest in
  let heard := record_call (Transcribe audio_data) st in
  (transcribe_audio audio_data st).1 = Ok (Some transcript) →
  (process_user_input transcript heard).1 = Ok (PyDict d) →
  handle_voice_input audio_data voice_type st =
  handle_text_input transcript voice_type heard.
Proof.
  intros transcript heard Hheard Hanswer.
  rewrite transcribe_audio_run in Hheard. cbn [fst] in Hheard.
  destruct (handle_text_input_body_outcome transcript voice_type heard)
    as (ai_response & Hrun & Hbody).
  rewrite Hrun in Hanswer. injection Hanswer as ->.
  destruct Hbody as (result & st' & Hbody).
  unfold handle_voice_input, handle_text_input, try_except.
  assert (Hvoice : handle_voice_input_body audio_data voice_type st =
                   handle_text_input_body transcript voice_type heard).
  { unfold handle_voice_input_body.
    erewrite bind_Ok by apply transcribe_audio_run.
    injection Hheard as ->. done. }
  by rewrite Hvoice, Hbody.
Qed.

(** After [clear_session] the next classification request carries the
    system prompt and the new user message only: nothing of the earlier
    conversation is sent. *)
Theorem cleared_history_is_not_sent (user_text : string) (st : state) :
  let cleared := (clear_session st).2 in
  trace (process_user_input user_text cleared).2 =
  (trace st
   ++ [ChatCompletion [{| role := "system"; content := system_prompt |};
                       user_message user_text]])%list.
Proof.
  intros cleared.
  destruct (process_user_input_run user_text cleared) as [ai_response ->].
  reflexivity.
Qed.

(** The update of a news branch writes its three keys and no other: a
    search keeps the category of an earlier fetch, a fetch keeps the topic
    of an earlier search, and both keep the voice preference. *)
Theorem news_branches_session_frame (ai_response : list (string * pyval))
    (st : state) (key : string) :
  (key ≠ "last_category" → key ≠ "last_news_data" → key ≠ "last_action" →
   current_session (_handle_news_request (PyDict ai_response) st).2 !! key
     = current_session st !! key) ∧
  (key ≠ "last_search" → key ≠ "last_news_data" → key ≠ "last_action" →
   current_session (_handle_news_search (PyDict ai_response) st).2 !! key
     = current_session st !! key).
Proof.
  split; intros H1 H2 H3.
  - unfold _handle_news_request, bind at 1, lift, py_get. cbn beta iota.
    destruct (py_eq _ (PyStr "general")).
    + unfold bind. rewrite get_all_categories_news_run. unfold ret. simpl.
      by rewrite !lookup_insert_ne.
    + unfold bind. rewrite get_top_headlines_run.
      destruct (headlines_of _ _) as [|a l]; cbv iota;
        [|match goal with
         | |- context [format_news_for_speech ?x ?y] =>
             destruct (format_news_for_speech x y)
         end];
        simpl;
        by rewrite ?lookup_insert_ne.
  - unfold _handle_news_search, bind at 1, lift, py_get. cbn beta iota.
    destruct (negb _); [done|].
    unfold bind. rewrite search_news_run.
    destruct (headlines_of _ _) as [|a l]; cbv iota;
      [|match goal with
         | |- context [format_news_for_speech ?x ?y] =>
             destruct (format_news_for_speech x y)
         end];
        simpl;
      by rewrite ?lookup_insert_ne.
Qed.
End Composition.

(** The transcriber hears [sports news]; the model replies with prose. *)
Lemma voice_turn_witness :
  let W :=
    constant_world "Here you go!"
      (Ok (PyDict [("articles",
                    PyList [full_article "Cup final tonight"
                              "Kick-off is at eight"])]))
      (Some "sports news") in
  @handle_voice_input ascii_runtime W [] "female" initial_state =
  @handle_text_input ascii_runtime W "sports news" "female"
    (record_call (Transcribe []) initial_state).
Proof.
  intros W.
  apply (@voice_turn_is_text_turn ascii_runtime W [] "female" initial_state
           "s" "ports news"
           (@_parse_fallback_response ascii_runtime "Here you go!"
              "sports news")); reflexivity.
Defined.

(** After a sports fetch the voice preference is still in the session. *)
Lemma news_branches_session_frame_witness :
  let W := constant_world "unused" (Ok (PyDict [])) None in
  current_session
    (@_handle_news_request ascii_runtime W
       (PyDict [("category", PyStr "sports")]) initial_state).2
    !! "voice_preference" = Some (PyStr "female").
Proof.
  intros W.
  rewrite (proj1 (@news_branches_session_frame ascii_runtime W
                    [("category", PyStr "sports")] initial_state
                    "voice_preference")); [reflexivity|discriminate..].
Defined.
